(** * Booking scraper: a shallow embedding of [booking_scraper_refactor.py]

    The script drives a browser (Selenium), reads the rendered pages with
    BeautifulSoup and writes one JSON record per destination.  The browser,
    the parsed documents and the file system are the environment of the
    program: they are modelled as interfaces ([Driver], [Soup]) over an
    abstract world, and every function of the script is a computation in a
    small monad that threads the world, propagates Python exceptions and
    records the calls made to the driver.

    Out of the model: console output ([print]), and interpreter-level
    interruptions ([KeyboardInterrupt], [SystemExit]), which are not
    subclasses of Python's [Exception]. *)

From Stdlib Require Import ZArith Lia Ascii String.
From stdpp Require Import base option list strings gmap.

Local Open Scope string_scope.
Local Open Scope list_scope.

(** ** Python exceptions

    Every constructor stands for a subclass of [Exception]; the three
    Selenium classes are the ones the script names in its handlers. *)
Inductive exn : Type :=
| TimeoutException
| ElementClickInterceptedException
| NoSuchElementException
| IOError
| OtherException (msg : string).

Inductive outcome (A : Type) : Type :=
| Ok (a : A)
| Raise (e : exn).
Arguments Ok {A} a.
Arguments Raise {A} e.

Definition is_ok {A} (o : outcome A) : bool :=
  match o with Ok _ => true | Raise _ => false end.

Definition outcome_map {A B} (f : A -> B) (o : outcome A) : outcome B :=
  match o with Ok a => Ok (f a) | Raise e => Raise e end.

(** ** CSS selectors

    The selector strings of the script are kept as syntax trees: a group of
    comma-separated complex selectors, each a chain of compound selectors
    linked by the descendant or the child combinator. *)
Inductive attr_test : Type :=
| AttrEq (name value : string)        (* [name="value"]  *)
| AttrHas (name value : string).      (* [name*="value"] *)

Record compound : Type := Compound {
  c_tag : option string;
  c_id : option string;
  c_attrs : list attr_test
}.

Inductive combinator : Type := Descendant | Child.

Definition complex : Type := (compound * list (combinator * compound))%type.
Definition selector : Type := list complex.

Definition by_attr (tag : option string) (name value : string) : compound :=
  Compound tag None [AttrEq name value].
Definition by_testid (tag : option string) (value : string) : compound :=
  by_attr tag "data-testid" value.
Definition one (c : compound) : selector := [(c, [])].

(** ** Keys sent to an input *)
Inductive key : Type :=
| KText (s : string)
| KControl
| KDelete
| KReturn.

(** ** Data model *)

(** One review, the dict built by [parse_visible_reviews]. *)
Record review : Type := Review {
  r_title : string;
  r_date : string;
  r_negative_feedback : string;
  r_positive_feedback : string
}.

(** The dict returned by [scrape_detail_page_data]. *)
Record detail_data : Type := DetailData {
  d_description : string;
  d_location : string;
  d_services : list string
}.

(** One listing: the dict appended by [scrape_listings_from_search_page].
    The last four keys are absent ([None]) until [main] adds them;
    ["url"] is whatever [link_elem.get('href')] gave, [None] included. *)
Record listing : Type := Listing {
  l_title : string;
  l_price : string;
  l_rating : string;
  l_distance : string;
  l_features : string;
  l_payment_policy : string;
  l_url : option string;
  l_beach_distance : string;
  l_description : option string;
  l_location : option string;
  l_services : option (list string);
  l_reviews : option (list review)
}.

(** The per-destination dict [resultado] of [main]. *)
Record resultado : Type := Resultado {
  res_destino : string;
  res_dest_id : string;
  res_dest_type : string;
  res_fecha_checkin : string;
  res_fecha_checkout : string;
  res_fecha_scraping : string;
  res_total_alojamientos : Z;
  res_alojamientos : list listing
}.

(** What [save_to_json] is given: the id map or one destination record. *)
Inductive json_payload : Type :=
| JDestinos (cfg : list (string * (string * string)))
| JResultado (r : resultado).

(** ** Calls to the environment and their log *)
Inductive call (Elem : Type) : Type :=
| CGet (url : string)
| CSleep (ms : Z)
| CSleepUniform (lo hi : Z)
| CWaitClickable (timeout : Z) (sel : selector)
| CWaitPresent (timeout : Z) (sel : selector)
| CJsClick (el : Elem)
| CFindElement (sel : selector)
| CElemFindElement (el : Elem) (sel : selector)
| CElemClick (el : Elem)
| CElemClear (el : Elem)
| CSendKeys (el : Elem) (keys : list key)
| CIsEnabled (el : Elem)
| CCurrentUrl
| CPageSource
| CBodyScrollHeight
| CWindowScrollBottom
| CElemScrollHeight (el : Elem)
| CElemScrollBottom (el : Elem)
| CNow
| CSaveJson (filename : string) (data : json_payload)
| CQuit.
Arguments CGet {Elem} url.
Arguments CSleep {Elem} ms.
Arguments CSleepUniform {Elem} lo hi.
Arguments CWaitClickable {Elem} timeout sel.
Arguments CWaitPresent {Elem} timeout sel.
Arguments CJsClick {Elem} el.
Arguments CFindElement {Elem} sel.
Arguments CElemFindElement {Elem} el sel.
Arguments CElemClick {Elem} el.
Arguments CElemClear {Elem} el.
Arguments CSendKeys {Elem} el keys.
Arguments CIsEnabled {Elem} el.
Arguments CCurrentUrl {Elem}.
Arguments CPageSource {Elem}.
Arguments CBodyScrollHeight {Elem}.
Arguments CWindowScrollBottom {Elem}.
Arguments CElemScrollHeight {Elem} el.
Arguments CElemScrollBottom {Elem} el.
Arguments CNow {Elem}.
Arguments CSaveJson {Elem} filename data.
Arguments CQuit {Elem}.

Inductive retval (Elem Node : Type) : Type :=
| RUnit
| RBool (b : bool)
| RInt (z : Z)
| RStr (s : string)
| RElem (el : Elem)
| RDoc (d : Node).
Arguments RUnit {Elem Node}.
Arguments RBool {Elem Node} b.
Arguments RInt {Elem Node} z.
Arguments RStr {Elem Node} s.
Arguments RElem {Elem Node} el.
Arguments RDoc {Elem Node} d.

Definition event (Elem Node : Type) : Type :=
  (call Elem * outcome (retval Elem Node))%type.

(** ** The page driver

    One field per use the script makes of Selenium, of the clock and of the
    file system.  A call may raise; the world moves on either way.
    [drv_page_soup] is [BeautifulSoup(driver.page_source, 'html.parser')];
    the four scroll fields are the four scripts given to
    [execute_script], whose [scrollHeight] results are integers. *)
Class Driver (W Elem Node : Type) : Type := {
  drv_get : string -> W -> outcome unit * W;
  drv_sleep : Z -> W -> W;
  drv_sleep_uniform : Z -> Z -> W -> W;
  drv_wait_clickable : Z -> selector -> W -> outcome Elem * W;
  drv_wait_present : Z -> selector -> W -> outcome Elem * W;
  drv_js_click : Elem -> W -> outcome unit * W;
  drv_find_element : selector -> W -> outcome Elem * W;
  drv_elem_find_element : Elem -> selector -> W -> outcome Elem * W;
  drv_elem_click : Elem -> W -> outcome unit * W;
  drv_elem_clear : Elem -> W -> outcome unit * W;
  drv_send_keys : Elem -> list key -> W -> outcome unit * W;
  drv_is_enabled : Elem -> W -> outcome bool * W;
  drv_current_url : W -> outcome string * W;
  drv_page_soup : W -> outcome Node * W;
  drv_body_scroll_height : W -> outcome Z * W;
  drv_window_scroll_bottom : W -> outcome unit * W;
  drv_elem_scroll_height : Elem -> W -> outcome Z * W;
  drv_elem_scroll_bottom : Elem -> W -> outcome unit * W;
  drv_now : W -> string * W;
  drv_save_json : string -> json_payload -> W -> outcome unit * W;
  drv_quit : W -> outcome unit * W
}.

(** ** The document queries (BeautifulSoup)

    Queries on a parsed document are pure; each may raise.  Where the
    script repeats a query on the same element with the same arguments
    (a test followed by a use), the model asks once and reuses the value. *)
Class Soup (Node : Type) : Type := {
  soup_find : Node -> string -> list (string * string) -> outcome (option Node);
  soup_find_all : Node -> string -> list (string * string) -> outcome (list Node);
  soup_find_by : Node -> (Node -> outcome bool) -> outcome (option Node);
  soup_select_one : Node -> selector -> outcome (option Node);
  soup_select : Node -> selector -> outcome (list Node);
  soup_get_text : Node -> string -> bool -> outcome string;
  soup_get : Node -> string -> outcome (option string);
  soup_name : Node -> string
}.

(** ** The monad: world, exceptions, log *)
Section Monad.
Context {W Elem Node : Type}.

Definition M (A : Type) : Type :=
  W -> (outcome A * W * list (event Elem Node))%type.

Definition ret {A} (a : A) : M A := fun w => (Ok a, w, []).

Definition raise {A} (e : exn) : M A := fun w => (Raise e, w, []).

Definition bind {A B} (m : M A) (k : A -> M B) : M B :=
  fun w =>
    match m w with
    | (Ok a, w1, t1) =>
        match k a w1 with
        | (r, w2, t2) => (r, w2, t1 ++ t2)
        end
    | (Raise e, w1, t1) => (Raise e, w1, t1)
    end.

(** [try: m  except Exception as e: h e] *)
Definition catch {A} (m : M A) (h : exn -> M A) : M A :=
  fun w =>
    match m w with
    | (Ok a, w1, t1) => (Ok a, w1, t1)
    | (Raise e, w1, t1) =>
        match h e w1 with
        | (r, w2, t2) => (r, w2, t1 ++ t2)
        end
    end.

(** A query on a document: no effect on the world, nothing logged. *)
Definition lift {A} (o : outcome A) : M A := fun w => (o, w, []).

(** A call that may raise. *)
Definition prim {A} (c : call Elem) (inj : A -> retval Elem Node)
    (op : W -> outcome A * W) : M A :=
  fun w =>
    match op w with
    | (r, w1) => (r, w1, [(c, outcome_map inj r)])
    end.

(** A call that cannot raise. *)
Definition prim_total {A} (c : call Elem) (inj : A -> retval Elem Node)
    (op : W -> A * W) : M A :=
  fun w =>
    match op w with
    | (a, w1) => (Ok a, w1, [(c, Ok (inj a))])
    end.
End Monad.

Arguments M : clear implicits.

Notation "'let*' x ':=' c1 'in' c2" := (bind c1 (fun x => c2))
  (at level 10, x pattern, c1 at level 100, c2 at level 200).
Notation "c1 ;; c2" := (bind c1 (fun _ => c2))
  (at level 100, c2 at level 200, right associativity).

Definition result_of {A W E N} (x : outcome A * W * list (event E N)) : outcome A :=
  x.1.1.
Definition world_of {A W E N} (x : outcome A * W * list (event E N)) : W :=
  x.1.2.
Definition trace_of {A W E N} (x : outcome A * W * list (event E N)) :
    list (event E N) :=
  x.2.
Arguments result_of {A W E N} x /.
Arguments world_of {A W E N} x /.
Arguments trace_of {A W E N} x /.

(** [let+] chains document queries, which have no world. *)
Definition obind {A B} (o : outcome A) (k : A -> outcome B) : outcome B :=
  match o with Ok a => k a | Raise e => Raise e end.

Notation "'let+' x ':=' c1 'in' c2" := (obind c1 (fun x => c2))
  (at level 10, x pattern, c1 at level 100, c2 at level 200).

(** ** Strings, the Python way *)

(** [s.startswith(pre)] *)
Definition startswith (s pre : string) : bool := String.prefix pre s.

(** [sub in s] *)
Fixpoint contains (sub s : string) : bool :=
  String.prefix sub s ||
  match s with
  | EmptyString => false
  | String _ s' => contains sub s'
  end.

Definition lower_ascii (c : ascii) : ascii :=
  let n := Ascii.nat_of_ascii c in
  if (65 <=? n)%nat && (n <=? 90)%nat then Ascii.ascii_of_nat (n + 32) else c.

(** [s.lower()], on the ASCII letters; the bytes of other characters are
    kept. *)
Fixpoint lower (s : string) : string :=
  match s with
  | EmptyString => EmptyString
  | String c s' => String (lower_ascii c) (lower s')
  end.

(** [sep.join(l)] *)
Fixpoint join (sep : string) (l : list string) : string :=
  match l with
  | [] => ""
  | [x] => x
  | x :: rest => x +:+ sep +:+ join sep rest
  end.

(** [s.replace(' ', '_')] *)
Fixpoint replace_space (s : string) : string :=
  match s with
  | EmptyString => EmptyString
  | String c s' =>
      String (if Ascii.eqb c " "%char then "_"%char else c) (replace_space s')
  end.

(** [range(lo, hi)] *)
Definition py_range (lo hi : Z) : list Z :=
  map (fun i => (lo + Z.of_nat i)%Z) (seq 0 (Z.to_nat (hi - lo))).

(** ** Configuration *)
Definition DESTINOS_NOMBRES : list string :=
  ["General Villamil"; "Salinas"; "Montañita"; "Puerto López"; "Ayampe";
   "Manta"; "Atacames"].
Definition FECHA_CHECKIN : string := "2025-11-11".
Definition FECHA_CHECKOUT : string := "2025-12-31".
Definition ESPERA_INICIAL_PAGINA : Z := 15.
Definition ESPERA_SCROLL : Z := 2.
Definition ESPERA_PAGINA_DETALLE : Z := 10.
Definition ESPERA_MODAL_RESEÑAS : Z := 10.
Definition MAX_PAGINAS_RESEÑAS : Z := 5.
Definition CARPETA_SALIDA : string := "datos_booking".

(** ** The selectors of the script *)

(* button[aria-label="Aceptar"], button[aria-label*="Aceptar"],
   button[data-testid="accept-button"], button[id*="onetrust-accept-btn"],
   button[aria-label*="Accept"] *)
Definition cookie_selectors : list selector :=
  [ one (Compound (Some "button") None [AttrEq "aria-label" "Aceptar"]);
    one (Compound (Some "button") None [AttrHas "aria-label" "Aceptar"]);
    one (by_testid (Some "button") "accept-button");
    one (Compound (Some "button") None [AttrHas "id" "onetrust-accept-btn"]);
    one (Compound (Some "button") None [AttrHas "aria-label" "Accept"]) ].

(* input[name="ss"] *)
Definition sel_search_box : selector := one (by_attr (Some "input") "name" "ss").
(* li[data-i="0"] *)
Definition sel_first_suggestion : selector := one (by_attr (Some "li") "data-i" "0").
(* button[type="submit"] *)
Definition sel_submit : selector := one (by_attr (Some "button") "type" "submit").
(* [data-testid="property-card"] *)
Definition sel_property_card : selector := one (by_testid None "property-card").
(* [data-testid="price-for-x-nights"] *)
Definition sel_price_for_x_nights : selector := one (by_testid None "price-for-x-nights").
(* div[data-testid="review-score"] > div[aria-hidden="true"] *)
Definition sel_review_score : selector :=
  [(by_testid (Some "div") "review-score",
    [(Child, by_attr (Some "div") "aria-hidden" "true")])].
(* ul > li > span *)
Definition sel_features : selector :=
  [(Compound (Some "ul") None [],
    [(Child, Compound (Some "li") None []);
     (Child, Compound (Some "span") None [])])].
(* p[data-testid="property-description"] *)
Definition sel_property_description : selector :=
  one (by_testid (Some "p") "property-description").
(* a#map_trigger_header_pin *)
Definition sel_map_link : selector :=
  one (Compound (Some "a") (Some "map_trigger_header_pin") []).
(* [data-testid="fr-read-all-reviews"] *)
Definition sel_read_all_reviews : selector := one (by_testid None "fr-read-all-reviews").
(* [data-testid="fr-reviews-modal"], div[role="dialog"] *)
Definition sel_reviews_modal : selector :=
  [(by_testid None "fr-reviews-modal", []);
   (by_attr (Some "div") "role" "dialog", [])].
(* div[data-testid="fr-reviews-modal"] div[data-testid="review-card"],
   div[role="dialog"] div[data-testid="review-card"] *)
Definition sel_review_cards : selector :=
  [(by_testid (Some "div") "fr-reviews-modal",
    [(Descendant, by_testid (Some "div") "review-card")]);
   (by_attr (Some "div") "role" "dialog",
    [(Descendant, by_testid (Some "div") "review-card")])].
(* button[aria-label="Página siguiente"] *)
Definition sel_next_page : selector :=
  one (by_attr (Some "button") "aria-label" "Página siguiente").
(* button[aria-label="Cerrar"] *)
Definition sel_close : selector :=
  one (by_attr (Some "button") "aria-label" "Cerrar").

(** ** The URL library

    [parse_qs(urlparse(url).query)]: the query parameters of a URL, each
    with the list of its values. *)
Class UrlLib : Type := {
  parse_query_params : string -> outcome (gmap string (list string))
}.

(** ** The script *)
Section Program.
Context {W Elem Node : Type}.
Context {Drv : Driver W Elem Node} {Sp : Soup Node} {Url : UrlLib}.

Abbreviation M := (M W Elem Node).

(** *** The calls, logged *)
Definition get (url : string) : M unit :=
  prim (CGet url) (fun _ => RUnit) (drv_get url).
Definition sleep (ms : Z) : M unit :=
  prim_total (CSleep ms) (fun _ => RUnit) (fun w => (tt, drv_sleep ms w)).
Definition sleep_uniform (lo hi : Z) : M unit :=
  prim_total (CSleepUniform lo hi) (fun _ => RUnit)
    (fun w => (tt, drv_sleep_uniform lo hi w)).
Definition wait_clickable (timeout : Z) (sel : selector) : M Elem :=
  prim (CWaitClickable timeout sel) RElem (drv_wait_clickable timeout sel).
Definition wait_present (timeout : Z) (sel : selector) : M Elem :=
  prim (CWaitPresent timeout sel) RElem (drv_wait_present timeout sel).
Definition js_click (el : Elem) : M unit :=
  prim (CJsClick el) (fun _ => RUnit) (drv_js_click el).
Definition find_element (sel : selector) : M Elem :=
  prim (CFindElement sel) RElem (drv_find_element sel).
Definition elem_find_element (el : Elem) (sel : selector) : M Elem :=
  prim (CElemFindElement el sel) RElem (drv_elem_find_element el sel).
Definition elem_click (el : Elem) : M unit :=
  prim (CElemClick el) (fun _ => RUnit) (drv_elem_click el).
Definition elem_clear (el : Elem) : M unit :=
  prim (CElemClear el) (fun _ => RUnit) (drv_elem_clear el).
Definition send_keys (el : Elem) (keys : list key) : M unit :=
  prim (CSendKeys el keys) (fun _ => RUnit) (drv_send_keys el keys).
Definition is_enabled (el : Elem) : M bool :=
  prim (CIsEnabled el) RBool (drv_is_enabled el).
Definition current_url : M string :=
  prim CCurrentUrl RStr drv_current_url.
Definition page_soup : M Node :=
  prim CPageSource RDoc drv_page_soup.
Definition body_scroll_height : M Z :=
  prim CBodyScrollHeight RInt drv_body_scroll_height.
Definition window_scroll_bottom : M unit :=
  prim CWindowScrollBottom (fun _ => RUnit) drv_window_scroll_bottom.
Definition elem_scroll_height (el : Elem) : M Z :=
  prim (CElemScrollHeight el) RInt (drv_elem_scroll_height el).
Definition elem_scroll_bottom (el : Elem) : M unit :=
  prim (CElemScrollBottom el) (fun _ => RUnit) (drv_elem_scroll_bottom el).
Definition now_isoformat : M string :=
  prim_total CNow RStr drv_now.
Definition write_json (filename : string) (data : json_payload) : M unit :=
  prim (CSaveJson filename data) (fun _ => RUnit) (drv_save_json filename data).
Definition quit : M unit :=
  prim CQuit (fun _ => RUnit) drv_quit.

(** [try: m  except Exception: pass] *)
Definition attempt (m : M unit) : M unit := catch m (fun _ => ret tt).

(** *** [buscar_dest_id] *)

(** The loop over the candidate consent buttons: the first that becomes
    clickable is clicked and ends the loop; a failure moves on. *)
Fixpoint accept_cookies (sels : list selector) : M unit :=
  match sels with
  | [] => ret tt
  | sel :: rest =>
      let* clicked :=
        catch (let* btn := wait_clickable 3 sel in
               js_click btn;;
               ret true)
              (fun _ => ret false) in
      if clicked then ret tt else accept_cookies rest
  end.

(** From [driver.get] to the last [time.sleep(5)]. *)
Definition search_interaction (ciudad pais : string) : M unit :=
  get "https://www.booking.com";;
  sleep 3000;;
  accept_cookies cookie_selectors;;
  let* search_box := wait_present 10 sel_search_box in
  elem_click search_box;;
  elem_clear search_box;;
  sleep 300;;
  send_keys search_box [KControl; KText "a"];;
  send_keys search_box [KDelete];;
  sleep 300;;
  let search_term := ciudad +:+ ", " +:+ pais in
  send_keys search_box [KText search_term];;
  sleep 2000;;
  catch (let* first_suggestion := wait_clickable 5 sel_first_suggestion in
         js_click first_suggestion;;
         sleep 1000)
        (fun _ => send_keys search_box [KReturn];; sleep 2000);;
  attempt (let* search_btn := find_element sel_submit in
           js_click search_btn);;
  sleep 5000.

(** [l[0]] *)
Definition first_item {A} (l : list A) : outcome A :=
  match l with
  | x :: _ => Ok x
  | [] => Raise (OtherException "IndexError")
  end.

(** Reading the identifier off the URL.  [None] is the pair
    [(None, None)]; [Some (dest_id, dest_type)] the pair of two strings. *)
Definition extract_dest_id (url : string) : outcome (option (string * string)) :=
  let+ params := parse_query_params url in
  let+ dest_id := first_item (default [None] (map Some <$> params !! "dest_id")) in
  let+ dest_type := first_item (default ["city"] (params !! "dest_type")) in
  match dest_id with
  | Some id => if bool_decide (id = "") then Ok None else Ok (Some (id, dest_type))
  | None => Ok None
  end.

(** The URL the browser is on once the search has been made. *)
Definition post_search_url (ciudad pais : string) : M string :=
  search_interaction ciudad pais;;
  current_url.

(** The body of the [try]. *)
Definition read_dest_id (ciudad pais : string) : M (option (string * string)) :=
  let* url := post_search_url ciudad pais in
  lift (extract_dest_id url).

(** [try: m] with handlers that only print and give [a] back. *)
Definition recover {A} (a : A) (m : M A) : M A := catch m (fun _ => ret a).

Definition buscar_dest_id (ciudad pais : string) : M (option (string * string)) :=
  recover None (read_dest_id ciudad pais).

(** *** [generar_url_busqueda] *)
Definition generar_url_busqueda (dest_id dest_type checkin checkout : string) : string :=
  let base_url := "https://www.booking.com/searchresults.es.html" in
  let params :=
    "?dest_id=" +:+ dest_id +:+ "&dest_type=" +:+ dest_type +:+
    "&checkin=" +:+ checkin +:+ "&checkout=" +:+ checkout +:+
    "&group_adults=2&no_rooms=1&group_children=0" in
  base_url +:+ params.

(** *** [scrape_detail_page_data] *)

Definition default_detail_data : detail_data :=
  DetailData "Descripción no disponible" "Ubicación (lat,lng) no disponible" [].

Definition set_description (soup : Node) (d : detail_data) : outcome detail_data :=
  let+ desc_elem_soup := soup_find soup "p" [("data-testid", "property-description")] in
  match desc_elem_soup with
  | Some e =>
      let+ t := soup_get_text e " " true in
      Ok (DetailData t (d_location d) (d_services d))
  | None => Ok d
  end.

Definition set_location (soup : Node) (d : detail_data) : outcome detail_data :=
  let+ map_link := soup_select_one soup sel_map_link in
  match map_link with
  | Some e =>
      let+ test := soup_get e "data-atlas-latlng" in
      match test with
      | Some s =>
          if bool_decide (s = "") then Ok d
          else Ok (DetailData (d_description d) s (d_services d))
      | None => Ok d
      end
  | None => Ok d
  end.

(** [[s.get_text(strip=True) for s in service_items if s.get_text(strip=True)]] *)
Fixpoint service_texts (items : list Node) : outcome (list string) :=
  match items with
  | [] => Ok []
  | s :: rest =>
      let+ t := soup_get_text s "" true in
      if bool_decide (t = "") then service_texts rest
      else
        let+ ts := service_texts rest in
        Ok (t :: ts)
  end.

Definition set_services (soup : Node) (d : detail_data) : outcome detail_data :=
  let+ services_wrapper :=
    soup_find soup "div" [("data-testid", "property-most-popular-facilities-wrapper")] in
  match services_wrapper with
  | Some e =>
      let+ service_items := soup_find_all e "span" [] in
      let+ ts := service_texts service_items in
      Ok (DetailData (d_description d) (d_location d) ts)
  | None => Ok d
  end.

(** Both handlers only print: the dict is left as the last completed
    assignment made it. *)
Definition scrape_detail_page_data : M detail_data :=
  let d0 := default_detail_data in
  recover d0
    (wait_present ESPERA_PAGINA_DETALLE sel_property_description;;
     let* detail_soup := page_soup in
     let* d1 := lift (set_description detail_soup d0) in
     recover d1
       (let* d2 := lift (set_location detail_soup d1) in
        recover d2 (lift (set_services detail_soup d2)))).

(** *** [scrape_listings_from_search_page] *)

(** [e.get_text(sep, strip=True) if e else default] *)
Definition text_or (e : option Node) (sep default : string) : outcome string :=
  match e with
  | Some n => soup_get_text n sep true
  | None => Ok default
  end.

(** [a or b], on query results *)
Definition or_else (a : option Node) (b : outcome (option Node)) :
    outcome (option Node) :=
  match a with
  | Some n => Ok (Some n)
  | None => b
  end.

(** [lambda tag: tag.name == "span" and
                 "playa" in tag.get_text(strip=True).lower()] *)
Definition is_beach_badge (tag : Node) : outcome bool :=
  if bool_decide (soup_name tag = "span") then
    let+ t := soup_get_text tag "" true in
    Ok (contains "playa" (lower t))
  else Ok false.

(** The list comprehension over [features_list]. *)
Fixpoint feature_texts (spans : list Node) : outcome (list string) :=
  match spans with
  | [] => Ok []
  | s :: rest =>
      let+ t := soup_get_text s "" true in
      if bool_decide (t = "") then feature_texts rest
      else
        let+ raw := soup_get_text s "" false in
        if contains "•" raw then feature_texts rest
        else
          let+ ts := feature_texts rest in
          Ok (t :: ts)
  end.

(** The body of the [try] of the loop over the cards. *)
Definition extract_card (card : Node) : outcome listing :=
  let+ name_elem := soup_find card "div" [("data-testid", "title")] in
  let+ title := text_or name_elem "" "Nombre no disponible" in
  let+ price_span :=
    soup_find card "span" [("data-testid", "price-and-discounted-price")] in
  let+ price_elem := or_else price_span (soup_select_one card sel_price_for_x_nights) in
  let+ price := text_or price_elem "" "Precio no disponible" in
  let+ title_link := soup_find card "a" [("data-testid", "title-link")] in
  let+ link_elem :=
    or_else title_link (soup_find card "a" [("data-testid", "availability-cta-btn")]) in
  let+ detail_url :=
    match link_elem with
    | Some a => soup_get a "href"
    | None => Ok (Some "")
    end in
  let+ score_div := soup_select_one card sel_review_score in
  let+ rating_value := text_or score_div "" "Sin puntuación" in
  let+ beach_badge := soup_find_by card is_beach_badge in
  let+ beach_distance := text_or beach_badge "" "Sin calificación" in
  let+ span_element := soup_find card "span" [("data-testid", "distance")] in
  let+ distance := text_or span_element "" "Distancia no disponible" in
  let+ features_list := soup_select card sel_features in
  let+ features_text :=
    match features_list with
    | [] => Ok ""
    | _ :: _ =>
        let+ ts := feature_texts features_list in
        Ok (join " " ts)
    end in
  let+ policy_div := soup_find card "div" [("data-testid", "payment-policy-tags")] in
  let+ payment_policy := text_or policy_div " " "" in
  Ok {| l_title := title;
        l_price := price;
        l_rating := rating_value;
        l_distance := distance;
        l_features := features_text;
        l_payment_policy := payment_policy;
        l_url := detail_url;
        l_beach_distance := beach_distance;
        l_description := None;
        l_location := None;
        l_services := None;
        l_reviews := None |}.

(** The loop over the cards: a card whose extraction raises is skipped. *)
Fixpoint extract_cards (cards : list Node) (properties_data : list listing) :
    list listing :=
  match cards with
  | [] => properties_data
  | card :: rest =>
      match extract_card card with
      | Ok p => extract_cards rest (properties_data ++ [p])
      | Raise _ => extract_cards rest properties_data
      end
  end.

(** The [while True] loop.  The fuel bounds the number of rounds the
    model follows: [None] is a loop still running when it is used up. *)
Fixpoint scroll_to_bottom (fuel : nat) (last_height : Z) : M (option unit) :=
  match fuel with
  | O => ret None
  | S fuel' =>
      window_scroll_bottom;;
      sleep (ESPERA_SCROLL * 1000);;
      let* new_height := body_scroll_height in
      if (new_height =? last_height)%Z then ret (Some tt)
      else scroll_to_bottom fuel' new_height
  end.

Definition scrape_listings_from_search_page (fuel : nat) (url : string) :
    M (option (list listing)) :=
  get url;;
  let* loaded :=
    catch (wait_present ESPERA_INICIAL_PAGINA sel_property_card;; ret true)
          (fun e => match e with
                    | TimeoutException => ret false
                    | _ => raise e
                    end) in
  if negb loaded then ret (Some [])
  else
    let* last_height := body_scroll_height in
    let* done := scroll_to_bottom fuel last_height in
    match done with
    | None => ret None
    | Some _ =>
        let* soup := page_soup in
        let* listings := lift (soup_find_all soup "div" [("data-testid", "property-card")]) in
        ret (Some (extract_cards listings []))
    end.

(** *** [scrape_reviews_from_modal] *)

Definition parse_card (card : Node) : outcome review :=
  let+ title_elem := soup_find card "h4" [("data-testid", "review-title")] in
  let+ date_elem := soup_find card "span" [("data-testid", "review-date")] in
  let+ review_pos_elem := soup_find card "div" [("data-testid", "review-positive-text")] in
  let+ review_neg_elem := soup_find card "div" [("data-testid", "review-negative-text")] in
  let+ title := text_or title_elem "" "" in
  let+ date := text_or date_elem "" "" in
  let+ negative := text_or review_neg_elem "" "" in
  let+ positive := text_or review_pos_elem "" "" in
  Ok (Review title date negative positive).

Fixpoint parse_cards (containers : list Node) : outcome (list review) :=
  match containers with
  | [] => Ok []
  | card :: rest =>
      let+ r := parse_card card in
      let+ rs := parse_cards rest in
      Ok (r :: rs)
  end.

Definition parse_visible_reviews : M (list review) :=
  let* soup := page_soup in
  let* containers := lift (soup_select soup sel_review_cards) in
  lift (parse_cards containers).

(** One round of the [for _ in range(15)] loop: [None] is [break]
    (also from the handler), [Some h] the new [last_height]. *)
Definition scroll_attempt (modal : Elem) (last_height : Z) : M (option Z) :=
  catch (let* current_height := elem_scroll_height modal in
         elem_scroll_bottom modal;;
         sleep 1500;;
         let* new_height := elem_scroll_height modal in
         if (new_height =? last_height)%Z || (new_height =? current_height)%Z
         then ret None
         else ret (Some new_height))
        (fun _ => ret None).

Fixpoint scroll_modal_loop (rounds : nat) (modal : Elem) (last_height : Z) : M unit :=
  match rounds with
  | O => ret tt
  | S rounds' =>
      let* r := scroll_attempt modal last_height in
      match r with
      | None => ret tt
      | Some h => scroll_modal_loop rounds' modal h
      end
  end.

Definition scroll_modal_completely (modal : Elem) : M unit :=
  scroll_modal_loop 15 modal (-1).

(** [Some true] is [True], [Some false] is [False], and [None] is the
    [None] of the path that ends without a [return]: the button was
    found and is disabled. *)
Definition click_next_page : M (option bool) :=
  catch (let* next_button := find_element sel_next_page in
         let* enabled := is_enabled next_button in
         if enabled then
           js_click next_button;;
           sleep 1500;;
           ret (Some true)
         else ret None)
        (fun _ => ret (Some false)).

(** [not click_next_page()] *)
Definition falsy (r : option bool) : bool :=
  match r with
  | Some true => false
  | _ => true
  end.

(** The inner loop over the reviews of one page. *)
Fixpoint admit_reviews (current_page_reviews : list review)
    (reviews : list review) (collected_titles : gset string) :
    list review * gset string :=
  match current_page_reviews with
  | [] => (reviews, collected_titles)
  | r :: rest =>
      if bool_decide (r_title r ∈ collected_titles)
      then admit_reviews rest reviews collected_titles
      else admit_reviews rest (reviews ++ [r]) ({[r_title r]} ∪ collected_titles)
  end.

(** The loop [for page in range(1, max_pages + 1)]. *)
Fixpoint page_loop (pages : list Z) (modal : Elem)
    (reviews : list review) (collected_titles : gset string) : M (list review) :=
  match pages with
  | [] => ret reviews
  | _ :: rest =>
      scroll_modal_completely modal;;
      let* current_page_reviews := parse_visible_reviews in
      let '(reviews', collected') :=
        admit_reviews current_page_reviews reviews collected_titles in
      let* advanced := click_next_page in
      if falsy advanced then ret reviews'
      else page_loop rest modal reviews' collected'
  end.

(** Step 1: the click on the button that opens the modal; [false] is the
    early [return reviews] of its handler. *)
Definition click_read_all_reviews : M bool :=
  catch (let* btn_read_reviews :=
           wait_clickable ESPERA_MODAL_RESEÑAS sel_read_all_reviews in
         js_click btn_read_reviews;;
         ret true)
        (fun e => match e with
                  | TimeoutException | ElementClickInterceptedException => ret false
                  | _ => raise e
                  end).

(** Step 2: the wait for the modal; [None] is the early [return reviews]
    of its handler. *)
Definition wait_reviews_modal : M (option Elem) :=
  catch (let* modal := wait_present ESPERA_MODAL_RESEÑAS sel_reviews_modal in
         ret (Some modal))
        (fun e => match e with
                  | TimeoutException => ret None
                  | _ => raise e
                  end).

Definition close_modal (modal : Elem) : M unit :=
  attempt (let* close_btn := elem_find_element modal sel_close in
           js_click close_btn).

Definition scrape_reviews_from_modal (max_pages : Z) : M (list review) :=
  let* opened := click_read_all_reviews in
  if negb opened then ret []
  else
    let* found := wait_reviews_modal in
    match found with
    | None => ret []
    | Some modal =>
        let* reviews := page_loop (py_range 1 (max_pages + 1)) modal [] ∅ in
        close_modal modal;;
        ret reviews
    end.

(** *** [save_to_json] *)
Definition save_to_json (data : json_payload) (filename : string) : M unit :=
  catch (write_json filename data)
        (fun e => match e with
                  | IOError => ret tt
                  | _ => raise e
                  end).

(** *** [main] *)

(** [destinos_config[ciudad] = v]: a dict keeps the order of first
    insertion. *)
Fixpoint dict_set {V} (k : string) (v : V) (d : list (string * V)) :
    list (string * V) :=
  match d with
  | [] => [(k, v)]
  | (k', v') :: rest =>
      if bool_decide (k = k') then (k, v) :: rest
      else (k', v') :: dict_set k v rest
  end.

(** PASO 1 *)
Fixpoint resolve_all (ciudades : list string)
    (destinos_config : list (string * (string * string))) :
    M (list (string * (string * string))) :=
  match ciudades with
  | [] => ret destinos_config
  | ciudad :: rest =>
      let* r := buscar_dest_id ciudad "Ecuador" in
      match r with
      | Some (dest_id, dest_type) =>
          if bool_decide (dest_id = "") then resolve_all rest destinos_config
          else resolve_all rest (dict_set ciudad (dest_id, dest_type) destinos_config)
      | None => resolve_all rest destinos_config
      end
  end.

(** [url and url.startswith("http")]: the guard under which a listing is
    enriched. *)
Definition url_ok (u : string) : bool :=
  negb (bool_decide (u = "")) && startswith u "http".


(** [listing.update(detail_data)] *)
Definition update_listing (l : listing) (d : detail_data) : listing :=
  {| l_title := l_title l;
     l_price := l_price l;
     l_rating := l_rating l;
     l_distance := l_distance l;
     l_features := l_features l;
     l_payment_policy := l_payment_policy l;
     l_url := l_url l;
     l_beach_distance := l_beach_distance l;
     l_description := Some (d_description d);
     l_location := Some (d_location d);
     l_services := Some (d_services d);
     l_reviews := l_reviews l |}.

(** [listing["reviews"] = reviews] *)
Definition set_reviews (l : listing) (rs : list review) : listing :=
  {| l_title := l_title l;
     l_price := l_price l;
     l_rating := l_rating l;
     l_distance := l_distance l;
     l_features := l_features l;
     l_payment_policy := l_payment_policy l;
     l_url := l_url l;
     l_beach_distance := l_beach_distance l;
     l_description := l_description l;
     l_location := l_location l;
     l_services := l_services l;
     l_reviews := Some rs |}.

(** The [try] of the loop over the listings, entered once the guard has
    let the listing through; the result is the listing as the
    assignments completed before an exception left it. *)
Definition enrich_listing (l : listing) (url : string) : M listing :=
  recover l
    (get url;;
     sleep_uniform 2 4;;
     let* detail_data := scrape_detail_page_data in
     let l1 := update_listing l detail_data in
     recover l1
       (let* reviews := scrape_reviews_from_modal MAX_PAGINAS_RESEÑAS in
        ret (set_reviews l1 reviews))).

(** One round of the loop over the listings. *)
Definition process_listing (l : listing) : M listing :=
  match l_url l with
  | Some u => if url_ok u then enrich_listing l u else ret l
  | None => ret l
  end.

Fixpoint process_listings (all_properties_data : list listing) : M (list listing) :=
  match all_properties_data with
  | [] => ret []
  | l :: rest =>
      let* l' := process_listing l in
      let* rest' := process_listings rest in
      ret (l' :: rest')
  end.

(** One round of the loop of PASO 2. *)
Definition process_destino (fuel : nat) (ciudad : string)
    (config : string * string) : M (option unit) :=
  let url_busqueda :=
    generar_url_busqueda config.1 config.2 FECHA_CHECKIN FECHA_CHECKOUT in
  let* harvested := scrape_listings_from_search_page fuel url_busqueda in
  match harvested with
  | None => ret None
  | Some [] => ret (Some tt)
  | Some all_properties_data =>
      let* all_properties_data := process_listings all_properties_data in
      let* fecha_scraping := now_isoformat in
      let resultado :=
        {| res_destino := ciudad;
           res_dest_id := config.1;
           res_dest_type := config.2;
           res_fecha_checkin := FECHA_CHECKIN;
           res_fecha_checkout := FECHA_CHECKOUT;
           res_fecha_scraping := fecha_scraping;
           res_total_alojamientos := Z.of_nat (length all_properties_data);
           res_alojamientos := all_properties_data |} in
      let filename :=
        CARPETA_SALIDA +:+ "/" +:+ replace_space (lower ciudad) +:+ "_data.json" in
      save_to_json (JResultado resultado) filename;;
      sleep_uniform 3 6;;
      ret (Some tt)
  end.

Fixpoint process_destinos (fuel : nat)
    (destinos_config : list (string * (string * string))) : M (option unit) :=
  match destinos_config with
  | [] => ret (Some tt)
  | (ciudad, config) :: rest =>
      let* r := process_destino fuel ciudad config in
      match r with
      | None => ret None
      | Some _ => process_destinos fuel rest
      end
  end.

(** The body of the outer [try] of [main]. *)
Definition main_body (fuel : nat) : M (option unit) :=
  let* destinos_config := resolve_all DESTINOS_NOMBRES [] in
  save_to_json (JDestinos destinos_config) (CARPETA_SALIDA +:+ "/destinos_ids.json");;
  process_destinos fuel destinos_config.

(** [main], from its [try] on: the directory and the driver exist.
    [None] is a run caught in a scroll loop that outlives the fuel. *)
Definition main (fuel : nat) : M (option unit) :=
  let* r := catch (main_body fuel) (fun _ => ret (Some tt)) in
  match r with
  | None => ret None
  | Some _ => quit;; ret (Some tt)
  end.
End Program.

(** ** A model of the URL library

    [urlparse] first removes the tabs and the line breaks of the URL;
    [urlparse(url).query] is then the text between the first [?] and the
    first [#]; [parse_qs] splits it at [&], each piece at its first [=],
    drops the pieces with an empty value, turns each [+] into a space and
    gathers the values of a name in order.  Percent-escapes are left as
    they are, and [;] is no separator (it is one for the versions of the
    library before 3.9.2). *)

(** The characters that [urlsplit] removes wherever they are: tab, line
    feed, carriage return. *)
Definition is_unsafe (c : ascii) : bool :=
  Ascii.eqb c "009"%char || Ascii.eqb c "010"%char || Ascii.eqb c "013"%char.

Fixpoint strip_unsafe (s : string) : string :=
  match s with
  | EmptyString => EmptyString
  | String c s' =>
      if is_unsafe c then strip_unsafe s' else String c (strip_unsafe s')
  end.

(** [s.split(c)] *)
Fixpoint split_char (c : ascii) (s : string) : list string :=
  match s with
  | EmptyString => [""]
  | String a s' =>
      if Ascii.eqb a c then "" :: split_char c s'
      else
        match split_char c s' with
        | x :: xs => String a x :: xs
        | [] => [String a ""]
        end
  end.

(** [s.partition(c)]: the text before the first [c], and the text after it
    when there is one. *)
Fixpoint partition_char (c : ascii) (s : string) : string * option string :=
  match s with
  | EmptyString => ("", None)
  | String a s' =>
      if Ascii.eqb a c then ("", Some s')
      else
        let '(before, after) := partition_char c s' in
        (String a before, after)
  end.

Definition url_query (url : string) : string :=
  default "" (partition_char "?" (partition_char "#" (strip_unsafe url)).1).2.

Fixpoint plus_to_space (s : string) : string :=
  match s with
  | EmptyString => EmptyString
  | String c s' =>
      String (if Ascii.eqb c "+"%char then " "%char else c) (plus_to_space s')
  end.

Definition parse_qsl (qs : string) : list (string * string) :=
  flat_map
    (fun name_value =>
       let '(name, value) := partition_char "=" name_value in
       match value with
       | Some v =>
           if bool_decide (v = "") then []
           else [(plus_to_space name, plus_to_space v)]
       | None => []
       end)
    (split_char "&" qs).

Definition parse_qs (qs : string) : gmap string (list string) :=
  foldl (fun m '(name, value) => <[name := default [] (m !! name) ++ [value]]> m)
        ∅ (parse_qsl qs).

Definition simple_urllib : UrlLib :=
  {| parse_query_params := fun url => Ok (parse_qs (url_query url)) |}.

(** ** A document tree and its queries

    Elements with a name, attributes and children, and text leaves: the
    documents of the test pages. *)
#[local] Set Warnings "-register-all".
Inductive node : Type :=
| El (name : string) (attrs : list (string * string)) (children : list node)
| Txt (s : string).

Definition node_name (n : node) : string :=
  match n with El name _ _ => name | Txt _ => "" end.

Definition node_attrs (n : node) : list (string * string) :=
  match n with El _ attrs _ => attrs | Txt _ => [] end.

Definition is_element (n : node) : bool :=
  match n with El _ _ _ => true | Txt _ => false end.

Fixpoint assoc (k : string) (l : list (string * string)) : option string :=
  match l with
  | [] => None
  | (k', v) :: rest => if bool_decide (k = k') then Some v else assoc k rest
  end.

(** Every node below [n], in document order, with its ancestors (nearest
    first). *)
Fixpoint walk (anc : list node) (n : node) : list (list node * node) :=
  match n with
  | Txt _ => []
  | El _ _ cs =>
      (fix go (l : list node) : list (list node * node) :=
         match l with
         | [] => []
         | c :: l' => (n :: anc, c) :: walk (n :: anc) c ++ go l'
         end) cs
  end.

Definition descendants (n : node) : list node :=
  filter (fun d => is_element d = true) ((walk [] n).*2).

Definition has_attrs (attrs : list (string * string)) (n : node) : bool :=
  forallb (fun '(k, v) => bool_decide (assoc k (node_attrs n) = Some v)) attrs.

Definition matches_tag (name : string) (attrs : list (string * string))
    (n : node) : bool :=
  is_element n && bool_decide (node_name n = name) && has_attrs attrs n.

Definition test_attr (n : node) (t : attr_test) : bool :=
  match t with
  | AttrEq k v => bool_decide (assoc k (node_attrs n) = Some v)
  | AttrHas k v =>
      match assoc k (node_attrs n) with
      | Some x => contains v x
      | None => false
      end
  end.

Definition matches_compound (c : compound) (n : node) : bool :=
  is_element n &&
  match c_tag c with Some t => bool_decide (node_name n = t) | None => true end &&
  match c_id c with Some i => bool_decide (assoc "id" (node_attrs n) = Some i) | None => true end &&
  forallb (test_attr n) (c_attrs c).

(** The chain to the left of the compound that matched the element,
    nearest step first, against the ancestors. *)
Fixpoint match_left (lhs : list (combinator * compound)) (anc : list node) : bool :=
  match lhs with
  | [] => true
  | (Child, c) :: lhs' =>
      match anc with
      | p :: anc' => matches_compound c p && match_left lhs' anc'
      | [] => false
      end
  | (Descendant, c) :: lhs' =>
      (fix search (a : list node) : bool :=
         match a with
         | [] => false
         | p :: a' => (matches_compound c p && match_left lhs' a') || search a'
         end) anc
  end.

(** [c0 k1 c1 ... kn cn] read from the right: [cn], then
    [(kn, c(n-1)); ...; (k1, c0)]. *)
Fixpoint from_right (c : compound) (steps : list (combinator * compound)) :
    compound * list (combinator * compound) :=
  match steps with
  | [] => (c, [])
  | (k, c') :: steps' =>
      let '(last, lhs) := from_right c' steps' in
      (last, lhs ++ [(k, c)])
  end.

Definition matches_complex (cx : complex) (anc : list node) (n : node) : bool :=
  let '(last, lhs) := from_right cx.1 cx.2 in
  matches_compound last n && match_left lhs anc.

Definition matches_selector (sel : selector) (anc : list node) (n : node) : bool :=
  existsb (fun cx => matches_complex cx anc n) sel.

Definition node_select (n : node) (sel : selector) : list node :=
  (filter (fun '(anc, d) => matches_selector sel anc d = true) (walk [] n)).*2.

Definition is_space (c : ascii) : bool :=
  let n := Ascii.nat_of_ascii c in
  (n =? 32)%nat || ((9 <=? n)%nat && (n <=? 13)%nat).

Fixpoint lstrip (s : string) : string :=
  match s with
  | EmptyString => EmptyString
  | String c s' => if is_space c then lstrip s' else s
  end.

(** [s.strip()] *)
Definition strip (s : string) : string :=
  String.rev (lstrip (String.rev (lstrip s))).

Definition text_pieces (n : node) : list string :=
  flat_map (fun d => match d with Txt s => [s] | El _ _ _ => [] end) ((walk [] n).*2).

(** [n.get_text(sep, strip=strip)] *)
Definition node_get_text (n : node) (sep : string) (stripped : bool) : string :=
  if stripped
  then join sep (filter (fun s => s ≠ "") (map strip (text_pieces n)))
  else join sep (text_pieces n).

Fixpoint first_by (pred : node -> outcome bool) (l : list node) :
    outcome (option node) :=
  match l with
  | [] => Ok None
  | d :: rest =>
      match pred d with
      | Ok true => Ok (Some d)
      | Ok false => first_by pred rest
      | Raise e => Raise e
      end
  end.

Definition node_soup : Soup node :=
  {| soup_find := fun n name attrs =>
       Ok (head (filter (fun d => matches_tag name attrs d = true) (descendants n)));
     soup_find_all := fun n name attrs =>
       Ok (filter (fun d => matches_tag name attrs d = true) (descendants n));
     soup_find_by := fun n pred => first_by pred (descendants n);
     soup_select_one := fun n sel => Ok (head (node_select n sel));
     soup_select := fun n sel => Ok (node_select n sel);
     soup_get_text := fun n sep stripped => Ok (node_get_text n sep stripped);
     soup_get := fun n k => Ok (assoc k (node_attrs n));
     soup_name := node_name |}.


(** ** A scripted browser

    A test double for the driver.  An element is named by the selector
    that found it; a wait or a lookup succeeds for the selectors listed in
    [mk_present]; [page_source] shows the document [mk_page] of
    [mk_docs], and a click on the next-page button moves to the following
    one; the button is enabled while a following document exists;
    [scrollHeight] reads the head of [mk_heights], whose last value
    stays. *)
Global Instance attr_test_eq_dec : EqDecision attr_test.
Proof. solve_decision. Defined.
Global Instance compound_eq_dec : EqDecision compound.
Proof. solve_decision. Defined.
Global Instance combinator_eq_dec : EqDecision combinator.
Proof. solve_decision. Defined.

Record mock_world : Type := MockWorld {
  mk_url : string;
  mk_present : list selector;
  mk_docs : list node;
  mk_page : nat;
  mk_heights : list Z
}.

Definition mock_has (sel : selector) (w : mock_world) : bool :=
  bool_decide (sel ∈ mk_present w).

Definition mock_lookup (missing : exn) (sel : selector) (w : mock_world) :
    outcome selector * mock_world :=
  if mock_has sel w then (Ok sel, w) else (Raise missing, w).

Definition mock_js_click (el : selector) (w : mock_world) :
    outcome unit * mock_world :=
  if bool_decide (el = sel_next_page)
  then (Ok tt, MockWorld (mk_url w) (mk_present w) (mk_docs w) (S (mk_page w)) (mk_heights w))
  else (Ok tt, w).

Definition mock_is_enabled (el : selector) (w : mock_world) :
    outcome bool * mock_world :=
  if bool_decide (el = sel_next_page)
  then (Ok (S (mk_page w) <? length (mk_docs w))%nat, w)
  else (Ok true, w).

Definition mock_page_soup (w : mock_world) : outcome node * mock_world :=
  match mk_docs w !! mk_page w with
  | Some d => (Ok d, w)
  | None => (Raise (OtherException "no document"), w)
  end.

Definition mock_scroll_height (w : mock_world) : outcome Z * mock_world :=
  match mk_heights w with
  | [] => (Ok 0%Z, w)
  | [h] => (Ok h, w)
  | h :: rest => (Ok h, MockWorld (mk_url w) (mk_present w) (mk_docs w) (mk_page w) rest)
  end.

Definition mock_driver : Driver mock_world selector node :=
  {| drv_get := fun _ w => (Ok tt, w);
     drv_sleep := fun _ w => w;
     drv_sleep_uniform := fun _ _ w => w;
     drv_wait_clickable := fun _ sel w => mock_lookup TimeoutException sel w;
     drv_wait_present := fun _ sel w => mock_lookup TimeoutException sel w;
     drv_js_click := mock_js_click;
     drv_find_element := fun sel w => mock_lookup NoSuchElementException sel w;
     drv_elem_find_element := fun _ sel w => mock_lookup NoSuchElementException sel w;
     drv_elem_click := fun _ w => (Ok tt, w);
     drv_elem_clear := fun _ w => (Ok tt, w);
     drv_send_keys := fun _ _ w => (Ok tt, w);
     drv_is_enabled := mock_is_enabled;
     drv_current_url := fun w => (Ok (mk_url w), w);
     drv_page_soup := mock_page_soup;
     drv_body_scroll_height := mock_scroll_height;
     drv_window_scroll_bottom := fun w => (Ok tt, w);
     drv_elem_scroll_height := fun _ w => mock_scroll_height w;
     drv_elem_scroll_bottom := fun _ w => (Ok tt, w);
     drv_now := fun w => ("2025-11-03T12:00:00", w);
     drv_save_json := fun _ _ w => (Ok tt, w);
     drv_quit := fun w => (Ok tt, w) |}.

(** *** Test pages *)

Definition testid (tag value : string) (children : list node) : node :=
  El tag [("data-testid", value)] children.

Definition review_card (title date : string) : node :=
  testid "div" "review-card"
    [ testid "h4" "review-title" [Txt title];
      testid "span" "review-date" [Txt date];
      testid "div" "review-positive-text" [Txt " Great "] ].

Definition modal_page (cards : list node) : node :=
  El "[document]" []
    [ El "html" []
        [ El "body" []
            [ testid "div" "fr-reviews-modal"
                (cards ++ [El "button" [("aria-label", "Página siguiente")] []]) ] ] ].

(** Three pages of two reviews; the second repeats one title of the
    first. *)
Definition modal_pages : list node :=
  [ modal_page [review_card "Excelente" "1 de enero"; review_card "Muy bien" "2 de enero"];
    modal_page [review_card "Muy bien" "2 de enero"; review_card "Regular" "3 de enero"];
    modal_page [review_card "Tranquilo" "4 de enero"; review_card "Ruidoso" "5 de enero"] ].

Definition modal_world : mock_world :=
  {| mk_url := "https://www.booking.com/hotel/ec/uno.es.html";
     mk_present := [sel_read_all_reviews; sel_reviews_modal; sel_next_page; sel_close];
     mk_docs := modal_pages;
     mk_page := 0;
     mk_heights := [400; 900; 900]%Z |}.


(** * Vocabulary of the properties *)

Definition titles (rs : list review) : list string := map r_title rs.

(** The invariant of the two loops: the stored titles are pairwise
    distinct, and [collected_titles] is exactly their set. *)
Definition dedup_inv (reviews : list review) (collected_titles : gset string) : Prop :=
  NoDup (titles reviews) /\
  forall t, t ∈ collected_titles <-> t ∈ titles reviews.

(** Counting in the log of a run. *)
Fixpoint count_events {E N} (p : event E N -> bool) (t : list (event E N)) : nat :=
  match t with
  | [] => 0
  | ev :: rest => (if p ev then 1 else 0) + count_events p rest
  end.

(** A read of the page: one per page iteration of the paginator. *)
Definition is_page_read {E N} (ev : event E N) : bool :=
  match ev.1 with CPageSource => true | _ => false end.

(** A scroll of the modal to its bottom: one per round of the inner loop. *)
Definition is_modal_scroll {E N} (ev : event E N) : bool :=
  match ev.1 with CElemScrollBottom _ => true | _ => false end.

(** A click that went through. *)
Definition is_click_ok {E N} (ev : event E N) : bool :=
  match ev with (CJsClick _, Ok _) => true | _ => false end.

(** What a piece of the paginator adds to the log: page reads, modal
    scrolls, and calls in all. *)
Record log_bound {E N} (t : list (event E N)) (reads scrolls len : nat) : Prop := {
  lb_reads : count_events is_page_read t <= reads;
  lb_scrolls : count_events is_modal_scroll t <= scrolls;
  lb_length : length t <= len
}.

(** The documents that were read, in order. *)
Definition docs_read {E N} (t : list (event E N)) : list N :=
  flat_map (fun ev => match ev with
                      | (CPageSource, Ok (RDoc d)) => [d]
                      | _ => []
                      end) t.

(** A click on the next-page button of the scripted browser that went
    through: a move to the following page. *)
Definition is_next_click (ev : event selector node) : bool :=
  match ev with
  | (CJsClick el, Ok _) => bool_decide (el = sel_next_page)
  | _ => false
  end.

(** The paginator with [max_pages = 2] on the modal of three pages. *)
Definition scenario_run : outcome (list review) * mock_world * list (event selector node) :=
  scrape_reviews_from_modal (Drv := mock_driver) (Sp := node_soup) 2 modal_world.

Definition scenario_reviews : list review :=
  [ Review "Excelente" "1 de enero" "" "Great";
    Review "Muy bien" "2 de enero" "" "Great";
    Review "Regular" "3 de enero" "" "Great" ].

(** The site of the resolver scenario: the search lands on a URL that
    carries [dest_id=900&dest_type=city]. *)
Definition resolver_world : mock_world :=
  {| mk_url := "https://www.booking.com/searchresults.es.html?ss=Salinas&dest_id=900&dest_type=city";
     mk_present := [sel_search_box; sel_first_suggestion; sel_submit];
     mk_docs := [];
     mk_page := 0;
     mk_heights := [] |}.

(** *** The scroll loop of the harvester *)

(** One round of the loop at the level of the driver: scroll, pause,
    measure. *)
Definition scroll_round {W Elem Node} {Drv : Driver W Elem Node} (w : W) :
    outcome Z * W :=
  match drv_window_scroll_bottom w with
  | (Ok _, w1) => drv_body_scroll_height (drv_sleep (ESPERA_SCROLL * 1000) w1)
  | (Raise e, w1) => (Raise e, w1)
  end.

(** The heights that [n] rounds in a row measure, up to a call that
    raises. *)
Fixpoint measured {W Elem Node} {Drv : Driver W Elem Node} (n : nat) (w : W) :
    list Z :=
  match n with
  | O => []
  | S n' =>
      match scroll_round w with
      | (Ok h, w') => h :: measured n' w'
      | (Raise _, _) => []
      end
  end.

(** The measurements never decrease, starting from [last], and never
    exceed [ceiling]. *)
Fixpoint steady_climb (last ceiling : Z) (hs : list Z) : bool :=
  match hs with
  | [] => true
  | h :: rest => (last <=? h)%Z && (h <=? ceiling)%Z && steady_climb h ceiling rest
  end.

(** A page of results that lazy loading grows to 3000: the heights left to
    measure after a first one of 1000. *)
Definition growing_world : mock_world :=
  {| mk_url := "https://www.booking.com/searchresults.es.html";
     mk_present := [sel_property_card];
     mk_docs := [];
     mk_page := 0;
     mk_heights := [2000; 3000; 3000]%Z |}.

(** A site on which nothing is ever found. *)
Definition empty_world : mock_world :=
  {| mk_url := "https://www.booking.com/";
     mk_present := [];
     mk_docs := [];
     mk_page := 0;
     mk_heights := [] |}.

(** *** A page of results *)

Definition property_card (title : string) (price : list node) (href : string) : node :=
  testid "div" "property-card"
    ([ El "a" [("data-testid", "title-link"); ("href", href)]
         [testid "div" "title" [Txt title]];
       testid "div" "review-score"
         [El "div" [("aria-hidden", "true")] [Txt "8,5"]; El "div" [] [Txt "Fabuloso"]];
       testid "span" "distance" [Txt " a 1,2 km del centro "];
       El "span" [] [Txt "A 200 m de la playa"];
       El "ul" []
         [ El "li" [] [El "span" [] [Txt "1 cama doble"]];
           El "li" [] [El "span" [] [Txt " • "]];
           El "li" [] [El "span" [] [Txt "Desayuno incluido"]] ] ]
     ++ price).

Definition price_tag (amount : string) : list node :=
  [testid "span" "price-and-discounted-price" [Txt amount]].

(** Three cards; the second has no price element. *)
Definition results_page : node :=
  El "[document]" []
    [ El "html" []
        [ El "body" []
            [ property_card "Hotel Uno" (price_tag "US$ 120")
                "https://www.booking.com/hotel/ec/uno.es.html";
              property_card "Hostal Dos" [] "https://www.booking.com/hotel/ec/dos.es.html";
              property_card "Casa Tres" (price_tag "US$ 95") "/hotel/ec/tres.es.html" ] ] ].

Definition results_world : mock_world :=
  {| mk_url := "https://www.booking.com/searchresults.es.html?dest_id=900&dest_type=city";
     mk_present := [sel_property_card];
     mk_docs := [results_page];
     mk_page := 0;
     mk_heights := [1500; 2600; 2600]%Z |}.


(** *** The guards of the harvester *)



(** A document library none of whose queries raises, as long as the
    predicate given to [find] does not. *)
Record queries_never_raise {Node} (Sp : Soup Node) : Prop := {
  qnr_find : forall n name attrs, is_ok (soup_find n name attrs) = true;
  qnr_find_by : forall n pred,
    (forall x, is_ok (pred x) = true) -> is_ok (soup_find_by n pred) = true;
  qnr_select_one : forall n sel, is_ok (soup_select_one n sel) = true;
  qnr_select : forall n sel, is_ok (soup_select n sel) = true;
  qnr_get_text : forall n sep stripped, is_ok (soup_get_text n sep stripped) = true;
  qnr_get : forall n k, is_ok (soup_get n k) = true
}.

(** *** The orchestrator *)

(** A property of every call in the log of a computation, from any
    world. *)
Definition trace_all {W E N A} (P : event E N -> Prop) (m : M W E N A) : Prop :=
  forall w, Forall P (trace_of (m w)).

(** A destination record given to [save_to_json] counts its own list. *)
Definition record_consistent {E N} (ev : event E N) : Prop :=
  match ev.1 with
  | CSaveJson _ (JResultado r) =>
      res_total_alojamientos r = Z.of_nat (length (res_alojamientos r))
  | _ => True
  end.

(** The listing has none of the keys that enrichment adds. *)
Definition unenriched (l : listing) : Prop :=
  l_description l = None /\ l_location l = None /\
  l_services l = None /\ l_reviews l = None.



(** A listing whose link is relative and begins with the letters of the
    guard. *)
Definition relative_listing : listing :=
  {| l_title := "Hostal Dos";
     l_price := "Precio no disponible";
     l_rating := "8,5";
     l_distance := "a 1,2 km del centro";
     l_features := "";
     l_payment_policy := "";
     l_url := Some "httpdocs/hotel/dos.es.html";
     l_beach_distance := "Sin calificación";
     l_description := None;
     l_location := None;
     l_services := None;
     l_reviews := None |}.

(** A site on which the search lands on [dest_id=900], the results page
    shows the three cards, and no detail page has anything to show. *)
Definition full_site : mock_world :=
  {| mk_url := "https://www.booking.com/searchresults.es.html?ss=Salinas&dest_id=900&dest_type=city";
     mk_present := [sel_search_box; sel_property_card];
     mk_docs := [results_page];
     mk_page := 0;
     mk_heights := [1500; 2600; 2600]%Z |}.

(** The destination records given to [save_to_json], in order. *)
Definition saved_records {E N} (t : list (event E N)) : list resultado :=
  flat_map (fun ev => match ev.1 with
                      | CSaveJson _ (JResultado r) => [r]
                      | _ => []
                      end) t.


(** *** Further vocabulary: faults, calls, fields *)

(** The scripted browser with faults: a call for which [fault] names an
    exception raises it and leaves the world as it is; the others behave
    as in [mock_driver]. *)
Definition with_fault {A} (fault : call selector -> option exn) (c : call selector)
    (op : mock_world -> outcome A * mock_world) : mock_world -> outcome A * mock_world :=
  fun w =>
    match fault c with
    | Some e => (Raise e, w)
    | None => op w
    end.

Definition faulty_driver (fault : call selector -> option exn) :
    Driver mock_world selector node :=
  {| drv_get := fun url => with_fault fault (CGet url) (fun w => (Ok tt, w));
     drv_sleep := fun _ w => w;
     drv_sleep_uniform := fun _ _ w => w;
     drv_wait_clickable := fun t sel =>
       with_fault fault (CWaitClickable t sel) (mock_lookup TimeoutException sel);
     drv_wait_present := fun t sel =>
       with_fault fault (CWaitPresent t sel) (mock_lookup TimeoutException sel);
     drv_js_click := fun el => with_fault fault (CJsClick el) (mock_js_click el);
     drv_find_element := fun sel =>
       with_fault fault (CFindElement sel) (mock_lookup NoSuchElementException sel);
     drv_elem_find_element := fun el sel =>
       with_fault fault (CElemFindElement el sel) (mock_lookup NoSuchElementException sel);
     drv_elem_click := fun el => with_fault fault (CElemClick el) (fun w => (Ok tt, w));
     drv_elem_clear := fun el => with_fault fault (CElemClear el) (fun w => (Ok tt, w));
     drv_send_keys := fun el keys =>
       with_fault fault (CSendKeys el keys) (fun w => (Ok tt, w));
     drv_is_enabled := fun el => with_fault fault (CIsEnabled el) (mock_is_enabled el);
     drv_current_url := with_fault fault CCurrentUrl (fun w => (Ok (mk_url w), w));
     drv_page_soup := with_fault fault CPageSource mock_page_soup;
     drv_body_scroll_height := with_fault fault CBodyScrollHeight mock_scroll_height;
     drv_window_scroll_bottom :=
       with_fault fault CWindowScrollBottom (fun w => (Ok tt, w));
     drv_elem_scroll_height := fun el =>
       with_fault fault (CElemScrollHeight el) mock_scroll_height;
     drv_elem_scroll_bottom := fun el =>
       with_fault fault (CElemScrollBottom el) (fun w => (Ok tt, w));
     drv_now := fun w => ("2025-11-03T12:00:00", w);
     drv_save_json := fun f d => with_fault fault (CSaveJson f d) (fun w => (Ok tt, w));
     drv_quit := with_fault fault CQuit (fun w => (Ok tt, w)) |}.

(** The document tree with a selector engine that fails: [select_one]
    raises, the other queries are those of [node_soup]. *)
Definition select_one_fails : Soup node :=
  {| soup_find := fun n name attrs =>
       Ok (head (filter (fun d => matches_tag name attrs d = true) (descendants n)));
     soup_find_all := fun n name attrs =>
       Ok (filter (fun d => matches_tag name attrs d = true) (descendants n));
     soup_find_by := fun n pred => first_by pred (descendants n);
     soup_select_one := fun _ _ => Raise (OtherException "selector");
     soup_select := fun n sel => Ok (node_select n sel);
     soup_get_text := fun n sep stripped => Ok (node_get_text n sep stripped);
     soup_get := fun n k => Ok (assoc k (node_attrs n));
     soup_name := node_name |}.

(** A click asked of the browser, whether it went through or not. *)
Definition is_js_click {E N} (ev : event E N) : bool :=
  match ev.1 with CJsClick _ => true | _ => false end.

(** An answer that the button is enabled. *)
Definition is_enabled_yes {E N} (ev : event E N) : bool :=
  match ev with (CIsEnabled _, Ok (RBool true)) => true | _ => false end.

(** A write of a JSON file. *)
Definition is_save {E N} (ev : event E N) : bool :=
  match ev.1 with CSaveJson _ _ => true | _ => false end.

(** The exceptions that the opening click of the paginator absorbs. *)
Definition absorbed_on_open (e : exn) : bool :=
  match e with
  | TimeoutException | ElementClickInterceptedException => true
  | _ => false
  end.

Definition is_timeout (e : exn) : bool :=
  match e with TimeoutException => true | _ => false end.

(** The eight keys that the harvester writes. *)
Definition harvested_fields (l : listing) :
    string * string * string * string * string * string * option string * string :=
  (l_title l, l_price l, l_rating l, l_distance l, l_features l,
   l_payment_policy l, l_url l, l_beach_distance l).

(** Each measurement differs from the one before it, starting from
    [last]. *)
Fixpoint all_differ (last : Z) (hs : list Z) : bool :=
  match hs with
  | [] => true
  | h :: rest => negb (h =? last)%Z && all_differ h rest
  end.

(** The character [c] occurs in [s]. *)
Fixpoint has_char (c : ascii) (s : string) : bool :=
  match s with
  | EmptyString => false
  | String a s' => Ascii.eqb a c || has_char c s'
  end.

(** A text without tab, line feed or carriage return. *)
Definition no_break (s : string) : bool :=
  negb (has_char "009" s) && negb (has_char "010" s) && negb (has_char "013" s).

(** A value that does not cut the query string short: no separator
    ([&], and [;] for the older versions of the library), no fragment
    mark, and none of the characters that the parsing of a URL
    removes. *)
Definition no_separator (s : string) : bool :=
  negb (has_char "&" s) && negb (has_char ";" s) && negb (has_char "#" s) &&
  no_break s.

(** A value that a query string carries as it is: it does not cut the
    query string short, and it holds no [+] and no percent-escape, which
    the reading of a query decodes. *)
Definition plain_value (s : string) : bool :=
  no_separator s && negb (has_char "+" s) && negb (has_char "%" s).

(** A write goes to a file of the output folder whose name has no
    space. *)
Definition well_placed {E N} (ev : event E N) : Prop :=
  match ev.1 with
  | CSaveJson f _ =>
      startswith f (CARPETA_SALIDA +:+ "/") = true /\ has_char " " f = false
  | _ => True
  end.

(** The ids of a configuration are not empty. *)
Definition ids_nonempty (cfg : list (string * (string * string))) : Prop :=
  Forall (fun kv => kv.2.1 <> "") cfg.

(** A card with a title and no link. *)
Definition bare_card : node :=
  testid "div" "property-card" [testid "div" "title" [Txt "Sin enlace"]].

(** A detail page with a description and a map link. *)
Definition detail_page : node :=
  El "[document]" []
    [ El "html" []
        [ El "body" []
            [ testid "p" "property-description" [Txt " Frente al mar. "];
              El "a" [("id", "map_trigger_header_pin"); ("data-atlas-latlng", "-2.2,-80.9")] [] ] ] ].

Definition detail_world : mock_world :=
  {| mk_url := "https://www.booking.com/hotel/ec/uno.es.html";
     mk_present := [sel_property_description];
     mk_docs := [detail_page];
     mk_page := 0;
     mk_heights := [] |}.

(** The modal on its last page: the next-page button is there and
    disabled. *)
Definition last_page_world : mock_world :=
  {| mk_url := "https://www.booking.com/hotel/ec/uno.es.html";
     mk_present := [sel_read_all_reviews; sel_reviews_modal; sel_next_page; sel_close];
     mk_docs := modal_pages;
     mk_page := 2;
     mk_heights := [900]%Z |}.

(** A page that grows at every scroll. *)
Definition endless_world : mock_world :=
  {| mk_url := "https://www.booking.com/searchresults.es.html";
     mk_present := [sel_property_card];
     mk_docs := [];
     mk_page := 0;
     mk_heights := [1000; 2000; 3000; 4000; 5000]%Z |}.

(** A site whose search lands on a URL with repeated parameters. *)
Definition repeated_params_world : mock_world :=
  {| mk_url := "https://www.booking.com/searchresults.es.html?dest_id=7&dest_id=8&dest_type=region&dest_type=city";
     mk_present := [sel_search_box];
     mk_docs := [];
     mk_page := 0;
     mk_heights := [] |}.

(** Faults: the wait for an element to be clickable breaks; the write of
    a file fails; the wait for an element to be present breaks. *)
Definition clickable_breaks (c : call selector) : option exn :=
  match c with
  | CWaitClickable _ _ => Some (OtherException "WebDriverException")
  | _ => None
  end.

Definition disk_full (c : call selector) : option exn :=
  match c with
  | CSaveJson _ _ => Some IOError
  | _ => None
  end.

Definition present_breaks (c : call selector) : option exn :=
  match c with
  | CWaitPresent _ _ => Some (OtherException "WebDriverException")
  | _ => None
  end.

(** *** Each field of a listing, read off its card *)








(** *** A detail page with everything on it *)




(** *** The way out of [main] *)

(** A scroll of the window to the bottom of the page. *)
Definition is_window_scroll {E N} (ev : event E N) : bool :=
  match ev.1 with CWindowScrollBottom => true | _ => false end.

(** A computation that is still running when the fuel is used up only
    after that many scrolls of the window. *)
Definition outlives {W E N A} (fuel : nat) (m : M W E N (option A)) : Prop :=
  forall w, result_of (m w) = Ok None ->
            fuel <= count_events is_window_scroll (trace_of (m w)).

(** A fault: the dump of a file breaks on a value it cannot encode. *)
Definition encoding_breaks (c : call selector) : option exn :=
  match c with
  | CSaveJson _ _ => Some (OtherException "TypeError")
  | _ => None
  end.

(** A site on which the search lands on [dest_id=900] and the page of
    results grows at every scroll. *)
Definition endless_site : mock_world :=
  {| mk_url := "https://www.booking.com/searchresults.es.html?ss=Salinas&dest_id=900&dest_type=city";
     mk_present := [sel_search_box; sel_property_card];
     mk_docs := [results_page];
     mk_page := 0;
     mk_heights := [1000; 2000; 3000; 4000; 5000]%Z |}.

(** * Tactics *)

(** Splits the result of the next call to the driver, or the next test. *)
Ltac split_call :=
  match goal with
  | |- context [match ?x with pair _ _ => _ end] =>
      lazymatch type of x with
      | (outcome _ * _)%type => destruct x as [[?|?] ?]
      end
  | |- context [if ?b then _ else _] => destruct b
  end.

(** Closes a bound on the log of a run once its pieces are bounded. *)
Ltac log_arith :=
  cbn [ret trace_of snd];
  autorewrite with log;
  cbn [count_events length];
  lia.

(** Splits, inside a hypothesis on the result of a run, the run of the
    computation [m] from the world [w]: its value, the world reached and
    the log; a raise there is absurd. *)
Tactic Notation "run_ok" constr(m) constr(w) "in" hyp(H) "as" ident(r) ident(w') ident(t) ident(E) :=
  unfold bind at 1 in H;
  destruct (m w) as [[[r|r] w'] t] eqn:E;
  [cbv beta iota in H|simpl in H; discriminate H].

(** Steps over the first query of a chain known to give a value. *)
Ltac obind_step H :=
  match type of H with
  | obind ?o _ = Ok _ =>
      let E := fresh "E" in
      destruct o eqn:E; [cbn [obind] in H|discriminate H]
  end.

(** * Properties *)

(** ** The monad *)
Section MonadFacts.
Context {W Elem Node : Type}.

Abbreviation M := (M W Elem Node).

Lemma bind_ok {A B} (m : M A) (k : A -> M B) w a w1 t1 :
  m w = (Ok a, w1, t1) ->
  bind m k w = ((k a w1).1.1, (k a w1).1.2, t1 ++ (k a w1).2).
Proof.
  intros Hm. unfold bind. rewrite Hm.
  destruct (k a w1) as [[r w2] t2]. reflexivity.
Qed.

Lemma bind_raise {A B} (m : M A) (k : A -> M B) w e w1 t1 :
  m w = (Raise e, w1, t1) -> bind m k w = (Raise e, w1, t1).
Proof. intros Hm. unfold bind. rewrite Hm. reflexivity. Qed.

Lemma catch_ok {A} (m : M A) (h : exn -> M A) w a w1 t1 :
  m w = (Ok a, w1, t1) -> catch m h w = (Ok a, w1, t1).
Proof. intros Hm. unfold catch. rewrite Hm. reflexivity. Qed.

Lemma catch_raise {A} (m : M A) (h : exn -> M A) w e w1 t1 :
  m w = (Raise e, w1, t1) ->
  catch m h w = ((h e w1).1.1, (h e w1).1.2, t1 ++ (h e w1).2).
Proof.
  intros Hm. unfold catch. rewrite Hm.
  destruct (h e w1) as [[r w2] t2]. reflexivity.
Qed.

(** A handler that returns a value makes the computation total. *)
Lemma recover_ok {A} (a : A) (m : M A) w :
  exists v, result_of (recover (W := W) (Elem := Elem) (Node := Node) a m w) = Ok v.
Proof.
  unfold recover, catch, result_of.
  destruct (m w) as [[[v|e] w1] t1]; simpl; eauto.
Qed.
End MonadFacts.

(** ** The log *)
Lemma count_events_app {E N} (p : event E N -> bool) t1 t2 :
  count_events p (t1 ++ t2) = count_events p t1 + count_events p t2.
Proof. induction t1 as [|ev t1 IH]; simpl; [reflexivity|]. rewrite IH. lia. Qed.

Create Rewrite HintDb log.
#[global] Hint Rewrite @count_events_app @length_app @app_nil_r : log.

(** ** The review paginator *)
Section Paginator.
Context {W Elem Node : Type}.
Context {Drv : Driver W Elem Node} {Sp : Soup Node}.

Lemma dedup_inv_empty : dedup_inv [] ∅.
Proof.
  split; [constructor|]. intros t. simpl. split.
  - intros Hin. exfalso. revert Hin. apply not_elem_of_empty.
  - intros Hin. inversion Hin.
Qed.

Lemma dedup_inv_admit r reviews collected :
  dedup_inv reviews collected ->
  r_title r ∉ collected ->
  dedup_inv (reviews ++ [r]) ({[r_title r]} ∪ collected).
Proof.
  intros [Hnd Hset] Hnew. unfold dedup_inv, titles in *.
  rewrite map_app. simpl. split.
  - apply NoDup_app. split; [exact Hnd|]. split.
    + intros t Ht Ht1. apply list_elem_of_singleton in Ht1. subst t.
      apply Hnew, Hset, Ht.
    + apply NoDup_singleton.
  - intros t. rewrite elem_of_union, elem_of_singleton, elem_of_app,
      list_elem_of_singleton, Hset. tauto.
Qed.

Lemma admit_reviews_inv cur : forall reviews collected,
  dedup_inv reviews collected ->
  dedup_inv (admit_reviews cur reviews collected).1
            (admit_reviews cur reviews collected).2.
Proof.
  induction cur as [|r rest IH]; intros reviews collected Hinv; simpl.
  - exact Hinv.
  - case_bool_decide as Hin.
    + apply IH, Hinv.
    + apply IH, dedup_inv_admit; assumption.
Qed.

(** A review enters the list only from the page, and only when its title
    is not yet collected. *)
Lemma admit_reviews_only_new cur : forall reviews collected r,
  r ∈ (admit_reviews cur reviews collected).1 ->
  r ∈ reviews \/ (r ∈ cur /\ r_title r ∉ collected).
Proof.
  induction cur as [|x rest IH]; intros reviews collected r; simpl.
  - auto.
  - case_bool_decide as Hin; intros Hr.
    + destruct (IH _ _ _ Hr) as [?|[? ?]]; [auto|].
      right. split; [apply elem_of_cons; auto|assumption].
    + destruct (IH _ _ _ Hr) as [Hold|[Hrest Hnot]].
      * apply elem_of_app in Hold as [?|Hx]; [auto|].
        apply list_elem_of_singleton in Hx. subst x.
        right. split; [apply elem_of_cons; auto|assumption].
      * right. split; [apply elem_of_cons; auto|].
        intros Hc. apply Hnot, elem_of_union. auto.
Qed.

Lemma page_loop_unique pages modal : forall reviews collected (w : W) rs,
  dedup_inv reviews collected ->
  result_of (page_loop pages modal reviews collected w) = Ok rs ->
  NoDup (titles rs).
Proof.
  induction pages as [|page rest IH]; intros reviews collected w rs Hinv Hres.
  - simpl in Hres. injection Hres as <-. apply Hinv.
  - cbn [page_loop] in Hres.
    run_ok (scroll_modal_completely modal) w in Hres as u w1 t1 E1.
    run_ok (parse_visible_reviews (W := W) (Elem := Elem)) w1 in Hres as cur w2 t2 E2.
    pose proof (admit_reviews_inv cur reviews collected Hinv) as Hinv'.
    destruct (admit_reviews cur reviews collected) as [reviews' collected'].
    run_ok (click_next_page (W := W) (Node := Node)) w2 in Hres as adv w3 t3 E3.
    destruct (falsy adv).
    + simpl in Hres. injection Hres as <-. apply Hinv'.
    + destruct (page_loop rest modal reviews' collected' w3) as [[r4 w4] t4] eqn:Hloop.
      simpl in Hres. subst r4.
      apply (IH reviews' collected' w3 rs Hinv').
      rewrite Hloop. reflexivity.
Qed.

Lemma scrape_reviews_unique (max_pages : Z) (w : W) (rs : list review) :
  result_of (scrape_reviews_from_modal max_pages w) = Ok rs ->
  NoDup (titles rs).
Proof.
  unfold scrape_reviews_from_modal. intros Hres.
  run_ok (click_read_all_reviews (W := W) (Node := Node)) w in Hres as opened w1 t1 E1.
  destruct opened; cbv beta iota delta [negb] in Hres.
  2:{ simpl in Hres. injection Hres as <-. constructor. }
  run_ok (wait_reviews_modal (W := W) (Node := Node)) w1 in Hres as found w2 t2 E2.
  destruct found as [modal|].
  2:{ simpl in Hres. injection Hres as <-. constructor. }
  run_ok (page_loop (py_range 1 (max_pages + 1)) modal [] ∅) w2 in Hres
    as reviews w3 t3 E3.
  run_ok (close_modal modal) w3 in Hres as u w4 t4 E4.
  simpl in Hres. injection Hres as <-.
  apply (page_loop_unique (py_range 1 (max_pages + 1)) modal [] ∅ w2 reviews dedup_inv_empty).
  rewrite E3. reflexivity.
Qed.

(** C1. Whatever pages the site presents, the list of reviews that
    [scrape_reviews_from_modal] returns holds no two reviews with the same
    title; and the loop over a page admits a review only from that page
    and only when its title is not among those collected so far. *)
Theorem paginator_titles_unique :
  (forall (max_pages : Z) (w : W) (rs : list review),
     result_of (scrape_reviews_from_modal max_pages w) = Ok rs ->
     NoDup (titles rs)) /\
  (forall (cur reviews : list review) (collected : gset string) (r : review),
     r ∈ (admit_reviews cur reviews collected).1 ->
     r ∈ reviews \/ (r ∈ cur /\ r_title r ∉ collected)).
Proof.
  split.
  - exact scrape_reviews_unique.
  - intros cur. exact (admit_reviews_only_new cur).
Qed.

(** *** The log of the paginator *)


Lemma scroll_attempt_log modal last (w : W) :
  log_bound (trace_of (scroll_attempt modal last w)) 0 1 4 /\
  count_events is_click_ok (trace_of (scroll_attempt modal last w)) = 0.
Proof.
  unfold scroll_attempt, catch, bind, ret, elem_scroll_height, elem_scroll_bottom,
    sleep, prim, prim_total.
  repeat (split_call; simpl); (split; [constructor|]); simpl; lia.
Qed.
Lemma scroll_modal_loop_log rounds modal : forall last (w : W),
  log_bound (trace_of (scroll_modal_loop rounds modal last w)) 0 rounds (4 * rounds) /\
  count_events is_click_ok (trace_of (scroll_modal_loop rounds modal last w)) = 0 /\
  exists u, result_of (scroll_modal_loop rounds modal last w) = Ok u.
Proof.
  induction rounds as [|n IH]; intros last w.
  - simpl. split; [constructor; simpl; lia|]. eauto.
  - cbn [scroll_modal_loop]. unfold bind.
    pose proof (scroll_attempt_log modal last w) as [[Hr Hs Hl] Hc].
    assert (exists v, result_of (scroll_attempt modal last w) = Ok v) as [v Hv]
      by apply recover_ok.
    destruct (scroll_attempt modal last w) as [[r w1] t1]. simpl in *. subst r.
    destruct v as [h|].
    + destruct (IH h w1) as [[Hr' Hs' Hl'] [Hc' [u Hu]]].
      destruct (scroll_modal_loop n modal h w1) as [[r2 w2] t2]. simpl in *.
      split; [constructor|split]; rewrite ?count_events_app, ?length_app;
        [lia|lia|lia|lia|eauto].
    + simpl. rewrite !app_nil_r.
      split; [constructor|split]; [lia|lia|lia|lia|eauto].
Qed.

Lemma parse_visible_reviews_log (w : W) :
  count_events is_page_read (trace_of (parse_visible_reviews w)) = 1 /\
  count_events is_modal_scroll (trace_of (parse_visible_reviews w)) = 0 /\
  count_events is_click_ok (trace_of (parse_visible_reviews w)) = 0 /\
  length (trace_of (parse_visible_reviews w)) = 1.
Proof.
  unfold parse_visible_reviews, bind, lift, page_soup, prim.
  destruct (drv_page_soup w) as [[soup|e] w1]; simpl; [|auto].
  destruct (soup_select soup sel_review_cards) as [cs|e]; simpl; [|auto].
  destruct (parse_cards cs); simpl; auto.
Qed.

(** The advance: it never raises, and it reports success only after a
    click that went through. *)
Lemma click_next_page_log (w : W) :
  let run := click_next_page (W := W) (Node := Node) w in
  log_bound (trace_of run) 0 0 4 /\
  (exists adv, result_of run = Ok adv /\
     (falsy adv = false -> count_events is_click_ok (trace_of run) = 1)).
Proof.
  unfold click_next_page, catch, bind, ret, find_element, is_enabled, js_click,
    sleep, prim, prim_total.
  repeat (split_call; simpl);
    (split; [constructor; simpl; lia|]); eexists; (split; [reflexivity|]);
    simpl; intros; try discriminate; reflexivity.
Qed.
Lemma page_loop_log pages modal : forall reviews collected (w : W),
  let t := trace_of (page_loop pages modal reviews collected w) in
  count_events is_page_read t <= length pages /\
  count_events is_modal_scroll t <= 15 * count_events is_page_read t /\
  length t <= 65 * length pages /\
  count_events is_page_read t <= 1 + count_events is_click_ok t.
Proof.
  induction pages as [|page rest IH]; intros reviews collected w.
  - simpl. lia.
  - cbn [page_loop]. unfold bind, scroll_modal_completely.
    destruct (scroll_modal_loop_log 15 modal (-1) w) as [[Hr1 Hs1 Hl1] [Hc1 [u Hu]]].
    destruct (scroll_modal_loop 15 modal (-1) w) as [[r1 w1] t1].
    simpl in Hr1, Hs1, Hl1, Hc1, Hu. subst r1.
    destruct (parse_visible_reviews_log w1) as [Hr2 [Hs2 [Hc2 Hl2]]].
    destruct (parse_visible_reviews w1) as [[[cur|e] w2] t2]; simpl in Hr2, Hs2, Hc2, Hl2.
    2:{ cbn [trace_of snd length]. rewrite !count_events_app, !length_app. lia. }
    destruct (admit_reviews cur reviews collected) as [reviews' collected'].
    destruct (click_next_page_log w2) as [[Hr3 Hs3 Hl3] [adv [Hadv Hc3]]].
    destruct (click_next_page w2) as [[r3 w3] t3].
    simpl in Hr3, Hs3, Hl3, Hadv, Hc3. subst r3.
    destruct (falsy adv).
    + cbn [ret trace_of snd length]. rewrite !count_events_app, !length_app.
      simpl count_events. simpl length. lia.
    + specialize (Hc3 eq_refl).
      specialize (IH reviews' collected' w3). cbv zeta in IH.
      destruct (page_loop rest modal reviews' collected' w3) as [[r4 w4] t4].
      simpl in IH. destruct IH as [Hr4 [Hs4 [Hl4 Hc4]]].
      cbn [trace_of snd length]. rewrite !count_events_app, !length_app. lia.
Qed.

Lemma py_range_length lo hi : length (py_range lo hi) = Z.to_nat (hi - lo).
Proof. unfold py_range. rewrite length_map, length_seq. reflexivity. Qed.

Lemma click_read_all_reviews_log (w : W) :
  let run := click_read_all_reviews (W := W) (Node := Node) w in
  log_bound (trace_of run) 0 0 2 /\
  (result_of run = Ok true -> count_events is_click_ok (trace_of run) = 1).
Proof.
  unfold click_read_all_reviews, catch, bind, ret, raise, wait_clickable, js_click, prim.
  repeat (split_call; simpl);
    try match goal with e : exn |- _ => destruct e; simpl end;
    (split; [constructor; simpl; lia|]); intros; try discriminate; reflexivity.
Qed.

Lemma wait_reviews_modal_log (w : W) :
  log_bound (trace_of (wait_reviews_modal (W := W) (Node := Node) w)) 0 0 1.
Proof.
  unfold wait_reviews_modal, catch, bind, ret, raise, wait_present, prim.
  repeat (split_call; simpl);
    try match goal with e : exn |- _ => destruct e; simpl end;
    constructor; simpl; lia.
Qed.

Lemma close_modal_log modal (w : W) :
  log_bound (trace_of (close_modal (Node := Node) modal w)) 0 0 2.
Proof.
  unfold close_modal, attempt, catch, bind, ret, elem_find_element, js_click, prim.
  repeat (split_call; simpl); constructor; simpl; lia.
Qed.

(** C2. For a positive [max_pages] and any behaviour of the site, the run
    of the paginator reads at most [max_pages] pages, scrolls the modal at
    most 15 times per page read, and makes at most [5 + 65 * max_pages]
    calls to the driver in all; inside the page loop, every page read
    after the first is paid by a click on the next-page button that went
    through. *)
Theorem paginator_halts (max_pages : Z) (w : W) :
  (0 < max_pages)%Z ->
  let t := trace_of (scrape_reviews_from_modal max_pages w) in
  (Z.of_nat (count_events is_page_read t) <= max_pages)%Z /\
  count_events is_modal_scroll t <= 15 * count_events is_page_read t /\
  (Z.of_nat (length t) <= 5 + 65 * max_pages)%Z /\
  (forall pages modal reviews collected (w' : W),
     let t' := trace_of (page_loop pages modal reviews collected w') in
     count_events is_page_read t' <= length pages /\
     count_events is_page_read t' <= 1 + count_events is_click_ok t').
Proof.
  intros Hpos. cbv zeta. split; [|split; [|split]].
  4:{ intros pages modal reviews collected w'.
      pose proof (page_loop_log pages modal reviews collected w') as Hlog.
      cbv zeta in Hlog. tauto. }
  all: unfold scrape_reviews_from_modal, bind.
  all: destruct (click_read_all_reviews_log w) as [[Hr1 Hs1 Hl1] _].
  all: destruct (click_read_all_reviews w) as [[[opened|e] w1] t1];
    simpl in Hr1, Hs1, Hl1; [|log_arith].
  all: destruct opened; cbv beta iota delta [negb]; [|log_arith].
  all: pose proof (wait_reviews_modal_log w1) as [Hr2 Hs2 Hl2].
  all: destruct (wait_reviews_modal w1) as [[[found|e] w2] t2];
    simpl in Hr2, Hs2, Hl2; [|log_arith].
  all: destruct found as [modal|]; [|log_arith].
  all: pose proof (page_loop_log (py_range 1 (max_pages + 1)) modal [] ∅ w2) as Hlog.
  all: cbv zeta in Hlog; rewrite py_range_length in Hlog.
  all: destruct Hlog as [Hr3 [Hs3 [Hl3 _]]].
  all: destruct (page_loop (py_range 1 (max_pages + 1)) modal [] ∅ w2)
    as [[[reviews|e] w3] t3]; simpl in Hr3, Hs3, Hl3; [|log_arith].
  all: pose proof (close_modal_log modal w3) as [Hr4 Hs4 Hl4].
  all: destruct (close_modal modal w3) as [[[u|e] w4] t4]; simpl in Hr4, Hs4, Hl4.
  all: log_arith.
Qed.
End Paginator.

(** *** The scenario of the modal with three pages *)

(** C1, at the scenario. *)
Lemma paginator_titles_unique_witness :
  result_of scenario_run = Ok scenario_reviews /\ NoDup (titles scenario_reviews).
Proof.
  assert (result_of scenario_run = Ok scenario_reviews) as Hrun
    by (vm_compute; reflexivity).
  split; [exact Hrun|].
  exact (proj1 (paginator_titles_unique (Drv := mock_driver) (Sp := node_soup))
           2%Z modal_world scenario_reviews Hrun).
Defined.

(** C2, at the scenario. *)
Lemma paginator_halts_witness :
  (0 < 2)%Z /\
  (Z.of_nat (count_events is_page_read (trace_of scenario_run)) <= 2)%Z /\
  (Z.of_nat (length (trace_of scenario_run)) <= 5 + 65 * 2)%Z.
Proof.
  assert (0 < 2)%Z as Hpos by lia.
  pose proof (paginator_halts (Drv := mock_driver) (Sp := node_soup)
                2 modal_world Hpos) as H.
  cbv zeta in H. destruct H as [Hreads [_ [Hlen _]]].
  split; [exact Hpos|]. split; [exact Hreads|exact Hlen].
Defined.

(** The claim C3 as stated fails: the run that returns the three reviews
    has moved the modal to its third page (index 2). *)
Lemma third_page_is_reached :
  ~ (exists rs, result_of scenario_run = Ok rs /\ length rs = 3 /\
       NoDup (titles rs) /\ mk_page (world_of scenario_run) < 2).
Proof.
  intros (rs & _ & _ & _ & Hpage). vm_compute in Hpage. lia.
Qed.

(** C3, amended. With [max_pages = 2] on a modal of three pages of two
    reviews, the second repeating one title of the first, the paginator
    returns exactly three reviews with distinct titles and reads two
    documents, the first two pages: nothing is extracted from the third.
    It clicks the next-page button after each of the two, so the modal is
    left on its third page. *)
Theorem paginator_scenario :
  result_of scenario_run = Ok scenario_reviews /\
  length scenario_reviews = 3 /\
  NoDup (titles scenario_reviews) /\
  docs_read (trace_of scenario_run) = take 2 modal_pages /\
  count_events is_page_read (trace_of scenario_run) = 2 /\
  count_events is_next_click (trace_of scenario_run) = 2 /\
  mk_page (world_of scenario_run) = 2.
Proof.
  split; [vm_compute; reflexivity|].
  split; [reflexivity|].
  split; [apply (bool_decide_unpack _); vm_compute; exact I|].
  repeat split; vm_compute; reflexivity.
Qed.

(** ** The location resolver *)
Section Resolver.
Context {W Elem Node : Type}.
Context {Drv : Driver W Elem Node} {Url : UrlLib}.

Lemma read_dest_id_found ciudad pais (w w1 : W) url t1 params :
  post_search_url (Node := Node) ciudad pais w = (Ok url, w1, t1) ->
  parse_query_params url = Ok params ->
  result_of (buscar_dest_id ciudad pais w) =
  Ok (match first_item (default [None] (map Some <$> params !! "dest_id")),
            first_item (default ["city"] (params !! "dest_type")) with
      | Ok (Some id), Ok ty => if bool_decide (id = "") then None else Some (id, ty)
      | _, _ => None
      end).
Proof.
  intros Hurl Hparams.
  unfold buscar_dest_id, recover, catch, read_dest_id, bind, lift, extract_dest_id, obind.
  rewrite Hurl, Hparams.
  destruct (first_item (default [None] (map Some <$> params !! "dest_id")))
    as [[id|]|e]; simpl;
    destruct (first_item (default ["city"] (params !! "dest_type"))) as [ty|e'];
    simpl; try reflexivity.
  destruct (bool_decide (id = "")); reflexivity.
Qed.

(** C4. [buscar_dest_id] always returns: an exception raised anywhere in
    its body gives the pair of [None]s.  When the search lands on a URL
    whose parameters are [dest_id=900] and [dest_type=city], the result
    is [("900", "city")]; without a [dest_id] parameter it is the pair of
    [None]s; with a [dest_id] and no [dest_type], the kind is ["city"]. *)
Theorem buscar_dest_id_never_raises (ciudad pais : string) (w : W) :
  (exists r, result_of (buscar_dest_id (Node := Node) ciudad pais w) = Ok r) /\
  (forall e w1 t1,
     read_dest_id (Node := Node) ciudad pais w = (Raise e, w1, t1) ->
     result_of (buscar_dest_id (Node := Node) ciudad pais w) = Ok None) /\
  (forall url w1 t1 params,
     post_search_url (Node := Node) ciudad pais w = (Ok url, w1, t1) ->
     parse_query_params url = Ok params ->
     (params !! "dest_id" = Some ["900"] -> params !! "dest_type" = Some ["city"] ->
      result_of (buscar_dest_id (Node := Node) ciudad pais w) = Ok (Some ("900", "city"))) /\
     (params !! "dest_id" = None ->
      result_of (buscar_dest_id (Node := Node) ciudad pais w) = Ok None) /\
     (forall id more, params !! "dest_id" = Some (id :: more) -> id <> "" ->
      params !! "dest_type" = None ->
      result_of (buscar_dest_id (Node := Node) ciudad pais w) = Ok (Some (id, "city")))).
Proof.
  split; [apply recover_ok|]. split.
  - intros e w1 t1 Hbody.
    unfold buscar_dest_id, recover, catch. rewrite Hbody. reflexivity.
  - intros url w1 t1 params Hurl Hparams.
    rewrite (read_dest_id_found _ _ _ _ _ _ _ Hurl Hparams).
    split; [|split].
    + intros -> ->. reflexivity.
    + intros ->. reflexivity.
    + intros id more -> Hid ->. simpl.
      rewrite bool_decide_eq_false_2 by exact Hid. reflexivity.
Qed.
End Resolver.

(** C4, at the site of the scenario. *)
Lemma buscar_dest_id_never_raises_witness :
  result_of (buscar_dest_id (Drv := mock_driver) (Url := simple_urllib)
               "Salinas" "Ecuador" resolver_world) = Ok (Some ("900", "city")).
Proof.
  pose proof (buscar_dest_id_never_raises (Drv := mock_driver) (Url := simple_urllib)
                "Salinas" "Ecuador" resolver_world) as (_ & _ & Hurl).
  refine (proj1 (Hurl (mk_url resolver_world) resolver_world _
                   (parse_qs (url_query (mk_url resolver_world))) _ _) _ _).
  - vm_compute. reflexivity.
  - reflexivity.
  - vm_compute. reflexivity.
  - vm_compute. reflexivity.
Defined.

(** ** The harvester *)
Section Harvester.
Context {W Elem Node : Type}.
Context {Drv : Driver W Elem Node} {Sp : Soup Node}.

(** C5. When the page is reached and the wait for a first result card
    times out, the harvester returns the empty list, whatever the fuel. *)
Theorem harvester_timeout_returns_empty (fuel : nat) (url : string) (w w1 w2 : W) :
  drv_get url w = (Ok tt, w1) ->
  drv_wait_present ESPERA_INICIAL_PAGINA sel_property_card w1 =
    (Raise TimeoutException, w2) ->
  result_of (scrape_listings_from_search_page fuel url w) = Ok (Some []).
Proof.
  intros Hget Hwait.
  unfold scrape_listings_from_search_page, bind, catch, get, wait_present, prim.
  rewrite Hget, Hwait. reflexivity.
Qed.

(** One round of [scroll_to_bottom] follows [scroll_round]. *)
Lemma scroll_to_bottom_round fuel last (w : W) :
  match scroll_round w with
  | (Raise e, w') =>
      result_of (scroll_to_bottom (Node := Node) (S fuel) last w) = Raise e
  | (Ok h, w') =>
      if (h =? last)%Z
      then result_of (scroll_to_bottom (Node := Node) (S fuel) last w) = Ok (Some tt) /\
           world_of (scroll_to_bottom (Node := Node) (S fuel) last w) = w'
      else result_of (scroll_to_bottom (Node := Node) (S fuel) last w) =
           result_of (scroll_to_bottom (Node := Node) fuel h w')
  end.
Proof.
  cbn [scroll_to_bottom].
  unfold scroll_round, bind, window_scroll_bottom, sleep, body_scroll_height,
    prim, prim_total.
  destruct (drv_window_scroll_bottom w) as [[u|e] w1]; [|reflexivity].
  destruct (drv_body_scroll_height (drv_sleep (ESPERA_SCROLL * 1000) w1))
    as [[h|e] w2]; [|reflexivity].
  destruct (h =? last)%Z; [split; reflexivity|].
  destruct (scroll_to_bottom fuel h w2) as [[r w3] t3]. reflexivity.
Qed.

Lemma scroll_to_bottom_ends ceiling k : forall last (w : W) fuel,
  (ceiling - last <= Z.of_nat k)%Z ->
  steady_climb last ceiling (measured (S k) w) = true ->
  S k <= fuel ->
  result_of (scroll_to_bottom (Node := Node) fuel last w) = Ok (Some tt) \/
  exists e, result_of (scroll_to_bottom (Node := Node) fuel last w) = Raise e.
Proof.
  induction k as [|k IH]; intros last w fuel Hgap Hclimb Hfuel;
    (destruct fuel as [|fuel]; [lia|]);
    pose proof (scroll_to_bottom_round fuel last w) as Hround;
    cbn [measured] in Hclimb;
    destruct (scroll_round w) as [[h|e] w'] eqn:Hr; eauto;
    cbn [steady_climb] in Hclimb;
    apply andb_prop in Hclimb as [Hb Hrest];
    apply andb_prop in Hb as [Hlo Hhi];
    apply Z.leb_le in Hlo; apply Z.leb_le in Hhi;
    destruct (Z.eqb_spec h last) as [Heq|Hne]; try (left; apply Hround).
  - lia.
  - rewrite Hround. apply IH; [lia|exact Hrest|lia].
Qed.

(** C6. A round of the scroll loop whose measurement equals the previous
    one ends the loop; a different one starts the next round with it.
    If the heights are measured non-decreasing and under a ceiling for
    [ceiling - last + 1] rounds, the loop has ended by then: with that
    much fuel or more it returns, or a call of the driver raised. *)
Theorem scroll_to_bottom_converges :
  (forall fuel last (w w' : W) h,
     scroll_round w = (Ok h, w') ->
     (h = last ->
      result_of (scroll_to_bottom (Node := Node) (S fuel) last w) = Ok (Some tt) /\
      world_of (scroll_to_bottom (Node := Node) (S fuel) last w) = w') /\
     (h <> last ->
      result_of (scroll_to_bottom (Node := Node) (S fuel) last w) =
      result_of (scroll_to_bottom (Node := Node) fuel h w'))) /\
  (forall ceiling last (w : W) fuel,
     steady_climb last ceiling (measured (S (Z.to_nat (ceiling - last))) w) = true ->
     S (Z.to_nat (ceiling - last)) <= fuel ->
     result_of (scroll_to_bottom (Node := Node) fuel last w) = Ok (Some tt) \/
     exists e, result_of (scroll_to_bottom (Node := Node) fuel last w) = Raise e).
Proof.
  split.
  - intros fuel last w w' h Hr.
    pose proof (scroll_to_bottom_round fuel last w) as Hround. rewrite Hr in Hround.
    destruct (Z.eqb_spec h last); split; intros; try contradiction; exact Hround.
  - intros ceiling last w fuel Hclimb Hfuel.
    apply (scroll_to_bottom_ends ceiling (Z.to_nat (ceiling - last))); [lia|assumption..].
Qed.
End Harvester.

(** C5, at the site where nothing is found. *)
Lemma harvester_timeout_returns_empty_witness :
  result_of (scrape_listings_from_search_page (Drv := mock_driver) (Sp := node_soup)
               0 "https://www.booking.com/searchresults.es.html" empty_world) =
  Ok (Some []).
Proof.
  apply (harvester_timeout_returns_empty (Drv := mock_driver) (Sp := node_soup)
           0 "https://www.booking.com/searchresults.es.html"
           empty_world empty_world empty_world);
    vm_compute; reflexivity.
Defined.

(** C6, at the page that grows from 1000 to 3000: from a first height of
    1000 and under the ceiling 3000, the loop returns. *)
Lemma scroll_to_bottom_converges_witness :
  result_of (scroll_to_bottom (Drv := mock_driver) (Node := node) 2001 1000 growing_world) =
  Ok (Some tt).
Proof.
  destruct (proj2 (scroll_to_bottom_converges (Drv := mock_driver))
              3000%Z 1000%Z growing_world 2001) as [Hok|[e He]].
  - vm_compute. reflexivity.
  - vm_compute. lia.
  - exact Hok.
  - vm_compute in He. discriminate He.
Defined.

(** ** The cards of the harvester *)
Section Cards.
Context {Node : Type} {Sp : Soup Node}.




(** With a library whose queries do not raise, a card always gives a
    listing: a missing element never aborts it. *)
Section TotalQueries.
Hypothesis Q : queries_never_raise Sp.






End TotalQueries.
End Cards.

(** The document tree is such a library. *)
Lemma first_by_total pred l :
  (forall x, is_ok (pred x) = true) -> is_ok (first_by pred l) = true.
Proof.
  intros Hpred. induction l as [|d rest IH]; simpl; [reflexivity|].
  specialize (Hpred d). destruct (pred d) as [[|]|e]; [reflexivity|exact IH|discriminate Hpred].
Qed.

Lemma node_soup_never_raises : queries_never_raise node_soup.
Proof.
  constructor; simpl; intros; try reflexivity.
  apply first_by_total. assumption.
Qed.



(** ** The detail enricher *)
Section Enricher.
Context {W Elem Node : Type}.
Context {Drv : Driver W Elem Node} {Sp : Soup Node}.

(** C7. [scrape_detail_page_data] never raises; when the wait for the
    description element fails (it times out, or raises anything else),
    the record returned holds the three defaults: the two sentinel texts
    and no service. *)
Theorem enricher_defaults_without_description :
  (forall w : W, exists d, result_of (scrape_detail_page_data w) = Ok d) /\
  (forall (w w1 : W) (e : exn),
     drv_wait_present ESPERA_PAGINA_DETALLE sel_property_description w = (Raise e, w1) ->
     result_of (scrape_detail_page_data w) =
       Ok (DetailData "Descripción no disponible" "Ubicación (lat,lng) no disponible" []) /\
     world_of (scrape_detail_page_data w) = w1).
Proof.
  split.
  - intros w. apply recover_ok.
  - intros w w1 e Hwait.
    unfold scrape_detail_page_data, recover, catch, bind, wait_present, prim.
    rewrite Hwait. split; reflexivity.
Qed.
End Enricher.

(** C7, at the site where nothing is found: the wait times out. *)
Lemma enricher_defaults_without_description_witness :
  result_of (scrape_detail_page_data (Drv := mock_driver) (Sp := node_soup) empty_world) =
  Ok (DetailData "Descripción no disponible" "Ubicación (lat,lng) no disponible" []).
Proof.
  refine (proj1 (proj2 (enricher_defaults_without_description
                          (Drv := mock_driver) (Sp := node_soup))
                   empty_world empty_world TimeoutException _)).
  vm_compute. reflexivity.
Defined.

(** ** The orchestrator *)
Section TraceAll.
Context {W Elem Node : Type}.
Context (P : event Elem Node -> Prop).

Lemma trace_all_ret {A} (a : A) : trace_all (W := W) P (ret a).
Proof. intros w. constructor. Qed.

Lemma trace_all_raise {A} (e : exn) : trace_all (W := W) (A := A) P (raise e).
Proof. intros w. constructor. Qed.

Lemma trace_all_lift {A} (o : outcome A) : trace_all (W := W) P (lift o).
Proof. intros w. constructor. Qed.

Lemma trace_all_bind {A B} (m : M W Elem Node A) (k : A -> M W Elem Node B) :
  trace_all P m -> (forall a, trace_all P (k a)) -> trace_all P (bind m k).
Proof.
  intros Hm Hk w. unfold bind. specialize (Hm w).
  destruct (m w) as [[[a|e] w1] t1]; simpl in Hm; [|exact Hm].
  specialize (Hk a w1). destruct (k a w1) as [[r w2] t2]. simpl in *.
  apply Forall_app. split; assumption.
Qed.

Lemma trace_all_catch {A} (m : M W Elem Node A) (h : exn -> M W Elem Node A) :
  trace_all P m -> (forall e, trace_all P (h e)) -> trace_all P (catch m h).
Proof.
  intros Hm Hh w. unfold catch. specialize (Hm w).
  destruct (m w) as [[[a|e] w1] t1]; simpl in Hm; [exact Hm|].
  specialize (Hh e w1). destruct (h e w1) as [[r w2] t2]. simpl in *.
  apply Forall_app. split; assumption.
Qed.

Lemma trace_all_prim {A} c (inj : A -> retval Elem Node) (op : W -> outcome A * W) :
  (forall r, P (c, r)) -> trace_all P (prim c inj op).
Proof.
  intros Hc w. unfold prim. destruct (op w) as [r w1]. simpl.
  constructor; [apply Hc|constructor].
Qed.

Lemma trace_all_prim_total {A} c (inj : A -> retval Elem Node) (op : W -> A * W) :
  (forall r, P (c, r)) -> trace_all P (prim_total c inj op).
Proof.
  intros Hc w. unfold prim_total. destruct (op w) as [a w1]. simpl.
  constructor; [apply Hc|constructor].
Qed.
End TraceAll.

Create HintDb trace.

(** Walks a computation built from the calls and the combinators of the
    monad, for a property of every call of its log; the database [trace]
    holds what is known of the computations it meets. *)
Ltac trace_walk :=
  repeat first
    [ assumption
    | solve [auto 1 with trace]
    | apply trace_all_ret
    | apply trace_all_raise
    | apply trace_all_lift
    | apply trace_all_bind
    | apply trace_all_catch
    | match goal with
      | |- trace_all _ (match ?x with _ => _ end) => destruct x
      | |- forall _, _ => intro
      end ].

Section Orchestrator.
Context {W Elem Node : Type}.
Context {Drv : Driver W Elem Node} {Sp : Soup Node} {Url : UrlLib}.

Abbreviation consistent := (trace_all (W := W) (E := Elem) (N := Node) record_consistent).

(** The calls other than [save_to_json]. *)
Lemma consistent_prim {A} c (inj : A -> retval Elem Node) (op : W -> outcome A * W) :
  (forall f d, c <> CSaveJson f d) -> consistent (prim c inj op).
Proof.
  intros Hc. apply trace_all_prim. intros r. unfold record_consistent. simpl.
  destruct c; try exact I. exfalso. eapply Hc. reflexivity.
Qed.

Lemma consistent_prim_total {A} c (inj : A -> retval Elem Node) (op : W -> A * W) :
  (forall f d, c <> CSaveJson f d) -> consistent (prim_total c inj op).
Proof.
  intros Hc. apply trace_all_prim_total. intros r. unfold record_consistent. simpl.
  destruct c; try exact I. exfalso. eapply Hc. reflexivity.
Qed.

Ltac driver_call :=
  first [apply consistent_prim | apply consistent_prim_total]; intros; discriminate.

Lemma consistent_get url : consistent (get url). Proof. driver_call. Qed.
Lemma consistent_sleep ms : consistent (sleep ms). Proof. driver_call. Qed.
Lemma consistent_sleep_uniform lo hi : consistent (sleep_uniform lo hi).
Proof. driver_call. Qed.
Lemma consistent_wait_clickable t sel : consistent (wait_clickable t sel).
Proof. driver_call. Qed.
Lemma consistent_wait_present t sel : consistent (wait_present t sel).
Proof. driver_call. Qed.
Lemma consistent_js_click el : consistent (js_click el). Proof. driver_call. Qed.
Lemma consistent_find_element sel : consistent (find_element sel).
Proof. driver_call. Qed.
Lemma consistent_elem_find_element el sel : consistent (elem_find_element el sel).
Proof. driver_call. Qed.
Lemma consistent_elem_click el : consistent (elem_click el). Proof. driver_call. Qed.
Lemma consistent_elem_clear el : consistent (elem_clear el). Proof. driver_call. Qed.
Lemma consistent_send_keys el keys : consistent (send_keys el keys).
Proof. driver_call. Qed.
Lemma consistent_is_enabled el : consistent (is_enabled el). Proof. driver_call. Qed.
Lemma consistent_current_url : consistent current_url. Proof. driver_call. Qed.
Lemma consistent_page_soup : consistent page_soup. Proof. driver_call. Qed.
Lemma consistent_body_scroll_height : consistent body_scroll_height.
Proof. driver_call. Qed.
Lemma consistent_window_scroll_bottom : consistent window_scroll_bottom.
Proof. driver_call. Qed.
Lemma consistent_elem_scroll_height el : consistent (elem_scroll_height el).
Proof. driver_call. Qed.
Lemma consistent_elem_scroll_bottom el : consistent (elem_scroll_bottom el).
Proof. driver_call. Qed.
Lemma consistent_now : consistent now_isoformat. Proof. driver_call. Qed.
Lemma consistent_quit : consistent quit. Proof. driver_call. Qed.

#[local] Hint Resolve consistent_get consistent_sleep consistent_sleep_uniform
  consistent_wait_clickable consistent_wait_present consistent_js_click
  consistent_find_element consistent_elem_find_element consistent_elem_click
  consistent_elem_clear consistent_send_keys consistent_is_enabled
  consistent_current_url consistent_page_soup consistent_body_scroll_height
  consistent_window_scroll_bottom consistent_elem_scroll_height
  consistent_elem_scroll_bottom consistent_now consistent_quit : trace.

Lemma consistent_accept_cookies sels : consistent (accept_cookies sels).
Proof. induction sels as [|sel rest IH]; simpl; trace_walk. Qed.
#[local] Hint Resolve consistent_accept_cookies : trace.

Lemma consistent_buscar_dest_id ciudad pais : consistent (buscar_dest_id ciudad pais).
Proof.
  unfold buscar_dest_id, recover, read_dest_id, post_search_url, search_interaction,
    attempt.
  trace_walk.
Qed.
#[local] Hint Resolve consistent_buscar_dest_id : trace.

Lemma consistent_resolve_all ciudades : forall cfg, consistent (resolve_all ciudades cfg).
Proof. induction ciudades as [|ciudad rest IH]; intros cfg; simpl; trace_walk. Qed.

Lemma consistent_scroll_to_bottom fuel : forall last, consistent (scroll_to_bottom fuel last).
Proof. induction fuel as [|fuel IH]; intros last; simpl; trace_walk. Qed.
#[local] Hint Resolve consistent_scroll_to_bottom : trace.

Lemma consistent_scrape_listings fuel url :
  consistent (scrape_listings_from_search_page fuel url).
Proof. unfold scrape_listings_from_search_page. trace_walk. Qed.

Lemma consistent_scrape_detail : consistent scrape_detail_page_data.
Proof. unfold scrape_detail_page_data, recover. trace_walk. Qed.

Lemma consistent_scroll_modal_loop rounds modal :
  forall last, consistent (scroll_modal_loop rounds modal last).
Proof.
  induction rounds as [|n IH]; intros last; simpl; unfold scroll_attempt; trace_walk.
Qed.
#[local] Hint Resolve consistent_scroll_modal_loop : trace.

Lemma consistent_page_loop pages modal :
  forall reviews collected, consistent (page_loop pages modal reviews collected).
Proof.
  induction pages as [|page rest IH]; intros reviews collected; simpl;
    unfold scroll_modal_completely, parse_visible_reviews, click_next_page;
    trace_walk.
Qed.
#[local] Hint Resolve consistent_page_loop : trace.

Lemma consistent_scrape_reviews max_pages : consistent (scrape_reviews_from_modal max_pages).
Proof.
  unfold scrape_reviews_from_modal, click_read_all_reviews, wait_reviews_modal,
    close_modal, attempt.
  trace_walk.
Qed.
#[local] Hint Resolve consistent_scrape_listings consistent_scrape_detail
  consistent_scrape_reviews consistent_resolve_all : trace.

Lemma consistent_process_listings ls : consistent (process_listings ls).
Proof.
  induction ls as [|l rest IH]; simpl; unfold process_listing, enrich_listing, recover;
    trace_walk.
Qed.
#[local] Hint Resolve consistent_process_listings : trace.

(** The one place where a destination record is written: its count is
    the length of the list it is written with. *)
Lemma consistent_save_resultado destino dest_id dest_type checkin checkout fecha ls filename :
  consistent
    (save_to_json
       (JResultado (Resultado destino dest_id dest_type checkin checkout fecha
                      (Z.of_nat (length ls)) ls))
       filename).
Proof.
  unfold save_to_json, write_json. apply trace_all_catch.
  - apply trace_all_prim. intros r. reflexivity.
  - intros e. destruct e; trace_walk.
Qed.

Lemma consistent_save_destinos cfg filename :
  consistent (save_to_json (JDestinos cfg) filename).
Proof.
  unfold save_to_json, write_json. apply trace_all_catch.
  - apply trace_all_prim. intros r. exact I.
  - intros e. destruct e; trace_walk.
Qed.
#[local] Hint Resolve consistent_save_resultado consistent_save_destinos : trace.

Lemma consistent_process_destino fuel ciudad config :
  consistent (process_destino fuel ciudad config).
Proof. unfold process_destino. cbv zeta. trace_walk. Qed.
#[local] Hint Resolve consistent_process_destino : trace.

Lemma consistent_process_destinos fuel cfg : consistent (process_destinos fuel cfg).
Proof. induction cfg as [|[ciudad config] rest IH]; simpl; trace_walk. Qed.
#[local] Hint Resolve consistent_process_destinos : trace.

(** *** The guard on the URL of a listing *)












(** C10. In every run of [main], each destination record handed to
    [save_to_json] has a [total_alojamientos] equal to the length of its
    own [alojamientos]. *)
Theorem main_records_count_their_listings (fuel : nat) (w : W) :
  Forall record_consistent (trace_of (main fuel w)).
Proof.
  revert w. change (consistent (main fuel)).
  unfold main, main_body. trace_walk.
Qed.
End Orchestrator.



(** On the site of the scenario, [main] saves one record per destination,
    each with its three listings. *)
Example main_saves_seven_records :
  map (fun r => (res_destino r, res_total_alojamientos r, length (res_alojamientos r)))
      (saved_records
         (trace_of (main (Drv := mock_driver) (Sp := node_soup) (Url := simple_urllib)
                      5 full_site))) =
  map (fun ciudad => (ciudad, 3%Z, 3)) DESTINOS_NOMBRES.
Proof. vm_compute. reflexivity. Qed.

(** ** The helpers, on examples *)

Example py_range_pages : py_range 1 (2 + 1) = [1; 2]%Z.
Proof. reflexivity. Qed.

Example py_range_empty : py_range 1 (-3 + 1) = [].
Proof. reflexivity. Qed.

Example url_query_of_search :
  url_query "https://www.booking.com/searchresults.es.html?ss=Salinas&dest_id=900#map" =
  "ss=Salinas&dest_id=900".
Proof. reflexivity. Qed.

Example parse_qs_gathers_values :
  parse_qs "a=1&b=&c&a=2+3" !! "a" = Some ["1"; "2 3"] /\
  parse_qs "a=1&b=&c&a=2+3" !! "b" = None /\
  parse_qs "a=1&b=&c&a=2+3" !! "c" = None.
Proof. repeat split; vm_compute; reflexivity. Qed.

Example strip_spaces : strip "  a 1,2 km  " = "a 1,2 km".
Proof. reflexivity. Qed.

Example lower_keeps_other_bytes : lower "A 200 m de la PLAYA, Montañita" =
  "a 200 m de la playa, montañita".
Proof. reflexivity. Qed.

Example generar_url_busqueda_salinas :
  generar_url_busqueda "900" "city" FECHA_CHECKIN FECHA_CHECKOUT =
  "https://www.booking.com/searchresults.es.html?dest_id=900&dest_type=city&checkin=2025-11-11&checkout=2025-12-31&group_adults=2&no_rooms=1&group_children=0".
Proof. reflexivity. Qed.

Example select_child_combinator :
  map (fun n => node_get_text n "" true)
      (node_select (property_card "Hotel Uno" [] "x") sel_review_score) = ["8,5"].
Proof. vm_compute. reflexivity. Qed.

Example url_ok_examples :
  url_ok "https://www.booking.com/hotel/ec/uno.es.html" = true /\
  url_ok "/hotel/ec/tres.es.html" = false /\
  url_ok "" = false /\
  url_ok "httpdocs/hotel/dos.es.html" = true.
Proof. repeat split. Qed.

(** * Further properties of the script *)

(** ** The resolver, beyond the three cases of the URL *)
Section ResolverEdges.
Context {W Elem Node : Type}.
Context {Drv : Driver W Elem Node} {Url : UrlLib}.

(** X1. The loop over the consent buttons never raises, stops at the
    first click that goes through (so at most one does), and makes at
    most two calls per candidate selector. *)
Theorem accept_cookies_clicks_at_most_once (sels : list selector) (w : W) :
  result_of (accept_cookies (Node := Node) sels w) = Ok tt /\
  count_events is_click_ok (trace_of (accept_cookies (Node := Node) sels w)) <= 1 /\
  length (trace_of (accept_cookies (Node := Node) sels w)) <= 2 * length sels.
Proof.
  revert w. induction sels as [|sel rest IH]; intros w.
  - simpl. repeat split; lia.
  - cbn [accept_cookies].
    unfold bind, catch, wait_clickable, js_click, prim, ret.
    destruct (drv_wait_clickable 3 sel w) as [[btn|e] w1]; simpl.
    + destruct (drv_js_click btn w1) as [[u|e] w2]; simpl.
      * repeat split; lia.
      * destruct (IH w2) as (Hres & Hclicks & Hlen).
        destruct (accept_cookies rest w2) as [[r w3] t3]. simpl in *.
        repeat split; [assumption|lia|lia].
    + destruct (IH w1) as (Hres & Hclicks & Hlen).
      destruct (accept_cookies rest w1) as [[r w3] t3]. simpl in *.
      repeat split; [assumption|lia|lia].
Qed.

(** X2. When the query of the URL reached after the search gives
    [dest_id] and [dest_type] several times, the resolver returns the
    first value of each, as the parsing of the query lists them (a list
    of the non-blank values of the parameter, in the order of the
    URL). *)
Theorem buscar_dest_id_takes_first_values (ciudad pais : string) (w w1 : W)
    (url : string) (t1 : list (event Elem Node)) (params : gmap string (list string))
    (id ty : string) (more more' : list string) :
  post_search_url (Node := Node) ciudad pais w = (Ok url, w1, t1) ->
  parse_query_params url = Ok params ->
  params !! "dest_id" = Some (id :: more) -> id <> "" ->
  params !! "dest_type" = Some (ty :: more') ->
  buscar_dest_id (Node := Node) ciudad pais w = (Ok (Some (id, ty)), w1, t1).
Proof.
  intros Hurl Hparams Hid Hne Hty.
  unfold buscar_dest_id, recover, catch, read_dest_id, bind, lift.
  rewrite Hurl. unfold extract_dest_id. rewrite Hparams. cbn [obind].
  rewrite Hid, Hty. simpl.
  rewrite bool_decide_eq_false_2 by exact Hne. rewrite app_nil_r. reflexivity.
Qed.
End ResolverEdges.

(** X2, at the site whose URL repeats both parameters. *)
Lemma buscar_dest_id_takes_first_values_witness :
  result_of (buscar_dest_id (Drv := mock_driver) (Url := simple_urllib)
               "Salinas" "Ecuador" repeated_params_world) = Ok (Some ("7", "region")).
Proof.
  refine (f_equal (fun x => x.1.1)
            (buscar_dest_id_takes_first_values (Drv := mock_driver)
               (Url := simple_urllib) "Salinas" "Ecuador"
               repeated_params_world repeated_params_world
               (mk_url repeated_params_world) _
               (parse_qs (url_query (mk_url repeated_params_world)))
               "7" "region" ["8"] ["city"] _ _ _ _ _)).
  - vm_compute. reflexivity.
  - reflexivity.
  - vm_compute. reflexivity.
  - discriminate.
  - vm_compute. reflexivity.
Defined.

(** ** The harvester and the paginator, when the browser fails *)
Section Failures.
Context {W Elem Node : Type}.
Context {Drv : Driver W Elem Node} {Sp : Soup Node}.

(** X3. Only a timeout of the wait for a first card is taken as an empty
    result: an exception of [driver.get], or any other exception of the
    wait, leaves the harvester as that exception, with no further call. *)
Theorem harvester_propagates_other_failures (fuel : nat) (url : string) (w : W) :
  (forall e w1,
     drv_get url w = (Raise e, w1) ->
     scrape_listings_from_search_page fuel url w =
       (Raise e, w1, [(CGet url, Raise e)])) /\
  (forall e w1 w2,
     drv_get url w = (Ok tt, w1) ->
     drv_wait_present ESPERA_INICIAL_PAGINA sel_property_card w1 = (Raise e, w2) ->
     is_timeout e = false ->
     scrape_listings_from_search_page fuel url w =
       (Raise e, w2,
        [(CGet url, Ok RUnit);
         (CWaitPresent ESPERA_INICIAL_PAGINA sel_property_card, Raise e)])).
Proof.
  split.
  - intros e w1 Hget.
    unfold scrape_listings_from_search_page, bind, get, prim.
    rewrite Hget. reflexivity.
  - intros e w1 w2 Hget Hwait Hother.
    unfold scrape_listings_from_search_page, bind, catch, get, wait_present, prim.
    rewrite Hget, Hwait. destruct e; try discriminate Hother; reflexivity.
Qed.

(** X4. The paginator gives up quietly when the modal cannot be opened:
    a timeout or an intercepted click at the opening button, or a timeout
    of the wait for the modal, gives the empty list; any other exception
    there is raised to the caller.  In all these cases no page is read. *)
Theorem paginator_gives_up_quietly (max_pages : Z) (w : W) :
  (forall e w1,
     drv_wait_clickable ESPERA_MODAL_RESEÑAS sel_read_all_reviews w = (Raise e, w1) ->
     result_of (scrape_reviews_from_modal max_pages w) =
       (if absorbed_on_open e then Ok [] else Raise e) /\
     count_events is_page_read (trace_of (scrape_reviews_from_modal max_pages w)) = 0) /\
  (forall btn e w1 w2,
     drv_wait_clickable ESPERA_MODAL_RESEÑAS sel_read_all_reviews w = (Ok btn, w1) ->
     drv_js_click btn w1 = (Raise e, w2) ->
     result_of (scrape_reviews_from_modal max_pages w) =
       (if absorbed_on_open e then Ok [] else Raise e) /\
     count_events is_page_read (trace_of (scrape_reviews_from_modal max_pages w)) = 0) /\
  (forall btn u e w1 w2 w3,
     drv_wait_clickable ESPERA_MODAL_RESEÑAS sel_read_all_reviews w = (Ok btn, w1) ->
     drv_js_click btn w1 = (Ok u, w2) ->
     drv_wait_present ESPERA_MODAL_RESEÑAS sel_reviews_modal w2 = (Raise e, w3) ->
     result_of (scrape_reviews_from_modal max_pages w) =
       (if is_timeout e then Ok [] else Raise e) /\
     count_events is_page_read (trace_of (scrape_reviews_from_modal max_pages w)) = 0).
Proof.
  split; [|split].
  - intros e w1 Hwait.
    unfold scrape_reviews_from_modal, click_read_all_reviews, bind, catch,
      wait_clickable, prim.
    rewrite Hwait. destruct e; split; reflexivity.
  - intros btn e w1 w2 Hwait Hclick.
    unfold scrape_reviews_from_modal, click_read_all_reviews, bind, catch,
      wait_clickable, js_click, prim.
    rewrite Hwait, Hclick. destruct e; split; reflexivity.
  - intros btn u e w1 w2 w3 Hwait Hclick Hmodal.
    unfold scrape_reviews_from_modal, click_read_all_reviews, wait_reviews_modal,
      bind, catch, wait_clickable, wait_present, js_click, prim.
    rewrite Hwait, Hclick. simpl. rewrite Hmodal. destruct e; split; reflexivity.
Qed.

(** X5. With [max_pages] zero or negative the page loop has no round:
    no page is read, the modal is not scrolled, and a run that returns
    gives the empty list. *)
Theorem paginator_without_pages (max_pages : Z) (w : W) :
  (max_pages <= 0)%Z ->
  count_events is_page_read (trace_of (scrape_reviews_from_modal max_pages w)) = 0 /\
  count_events is_modal_scroll (trace_of (scrape_reviews_from_modal max_pages w)) = 0 /\
  (forall rs, result_of (scrape_reviews_from_modal max_pages w) = Ok rs -> rs = []).
Proof.
  intros Hle.
  assert (py_range 1 (max_pages + 1) = []) as Hrange.
  { unfold py_range. replace (Z.to_nat (max_pages + 1 - 1)) with 0 by lia. reflexivity. }
  unfold scrape_reviews_from_modal. rewrite Hrange. unfold bind.
  destruct (click_read_all_reviews_log w) as [[Hr1 Hs1 _] _].
  destruct (click_read_all_reviews w) as [[[opened|e] w1] t1]; simpl in Hr1, Hs1.
  2:{ simpl. repeat split; [lia|lia|discriminate]. }
  destruct opened; cbv beta iota delta [negb].
  2:{ simpl. autorewrite with log. simpl.
      repeat split; [lia|lia|intros rs [= <-]; reflexivity]. }
  pose proof (wait_reviews_modal_log w1) as [Hr2 Hs2 _].
  destruct (wait_reviews_modal w1) as [[[found|e] w2] t2]; simpl in Hr2, Hs2.
  2:{ simpl. autorewrite with log. repeat split; [lia|lia|discriminate]. }
  destruct found as [modal|].
  2:{ simpl. autorewrite with log. simpl.
      repeat split; [lia|lia|intros rs [= <-]; reflexivity]. }
  cbn [page_loop]. unfold ret. cbv beta iota.
  pose proof (close_modal_log modal w2) as [Hr3 Hs3 _].
  destruct (close_modal modal w2) as [[[u|e] w3] t3]; simpl in Hr3, Hs3;
    cbn [result_of trace_of fst snd]; autorewrite with log; cbn [count_events];
    (repeat split; [lia|lia|]).
  - intros rs [= <-]. reflexivity.
  - discriminate.
Qed.

(** X6. [click_next_page] never raises and never clicks a button that did
    not answer that it is enabled.  A button that is found and disabled
    gives [None] after the two calls that found and asked it; a button
    that is not found gives [False] after one. *)
Theorem click_next_page_respects_disabled (w : W) :
  (exists adv, result_of (click_next_page (Node := Node) w) = Ok adv) /\
  count_events is_js_click (trace_of (click_next_page (Node := Node) w)) <=
    count_events is_enabled_yes (trace_of (click_next_page (Node := Node) w)) /\
  (forall btn w1 w2,
     drv_find_element sel_next_page w = (Ok btn, w1) ->
     drv_is_enabled btn w1 = (Ok false, w2) ->
     click_next_page (Node := Node) w =
       (Ok None, w2,
        [(CFindElement sel_next_page, Ok (RElem btn));
         (CIsEnabled btn, Ok (RBool false))])) /\
  (forall e w1,
     drv_find_element sel_next_page w = (Raise e, w1) ->
     click_next_page (Node := Node) w =
       (Ok (Some false), w1, [(CFindElement sel_next_page, Raise e)])).
Proof.
  split; [apply recover_ok with (a := Some false)|]. split; [|split].
  - unfold click_next_page, catch, bind, ret, find_element, is_enabled, js_click,
      sleep, prim, prim_total.
    repeat (split_call; simpl); lia.
  - intros btn w1 w2 Hfind Henabled.
    unfold click_next_page, catch, bind, ret, find_element, is_enabled, prim.
    rewrite Hfind, Henabled. reflexivity.
  - intros e w1 Hfind.
    unfold click_next_page, catch, bind, ret, find_element, prim.
    rewrite Hfind. reflexivity.
Qed.
End Failures.

(** X3, at a browser whose waits for presence break. *)
Lemma harvester_propagates_other_failures_witness :
  result_of (scrape_listings_from_search_page (Drv := faulty_driver present_breaks)
               (Sp := node_soup) 3 "https://www.booking.com/searchresults.es.html"
               results_world) =
  Raise (OtherException "WebDriverException").
Proof.
  rewrite (proj2 (harvester_propagates_other_failures
                    (Drv := faulty_driver present_breaks) (Sp := node_soup)
                    3 "https://www.booking.com/searchresults.es.html" results_world)
             (OtherException "WebDriverException") results_world results_world).
  - reflexivity.
  - reflexivity.
  - reflexivity.
  - reflexivity.
Defined.

(** X4, at the site where nothing is found: the opening button never
    becomes clickable. *)
Lemma paginator_gives_up_quietly_witness :
  result_of (scrape_reviews_from_modal (Drv := mock_driver) (Sp := node_soup)
               5 empty_world) = Ok [].
Proof.
  refine (proj1 (proj1 (paginator_gives_up_quietly (Drv := mock_driver)
                          (Sp := node_soup) 5 empty_world)
                   TimeoutException empty_world _)).
  reflexivity.
Defined.

(** X5, at the modal of three pages with [max_pages = 0]. *)
Lemma paginator_without_pages_witness :
  (0 <= 0)%Z /\
  count_events is_page_read
    (trace_of (scrape_reviews_from_modal (Drv := mock_driver) (Sp := node_soup)
                 0 modal_world)) = 0.
Proof.
  assert (0 <= 0)%Z as Hle by lia.
  split; [exact Hle|].
  exact (proj1 (paginator_without_pages (Drv := mock_driver) (Sp := node_soup)
                  0 modal_world Hle)).
Defined.

(** X6, at the modal on its last page. *)
Lemma click_next_page_respects_disabled_witness :
  result_of (click_next_page (Drv := mock_driver) (Node := node) last_page_world) =
  Ok None.
Proof.
  rewrite (proj1 (proj2 (proj2 (click_next_page_respects_disabled
                                  (Drv := mock_driver) (Node := node) last_page_world)))
             sel_next_page last_page_world last_page_world).
  - reflexivity.
  - vm_compute. reflexivity.
  - vm_compute. reflexivity.
Defined.

(** ** The loop that admits the reviews of a page *)

#[local] Set Warnings "-clear-no-such-hyp".

(** X7. [admit_reviews] only appends: what was stored stays first and in
    order, and what is added is taken from the page in its order.  The
    set of collected titles grows by the titles of the page; and when
    every collected title was stored, the titles stored afterwards are
    the ones stored before and the ones of the page. *)
Theorem admit_reviews_extends (cur : list review) :
  forall (reviews : list review) (collected : gset string),
  (exists new, (admit_reviews cur reviews collected).1 = reviews ++ new /\
               sublist new cur) /\
  (admit_reviews cur reviews collected).2 = collected ∪ list_to_set (titles cur) /\
  (collected ⊆ list_to_set (titles reviews) ->
   forall t, t ∈ titles (admit_reviews cur reviews collected).1 <->
             t ∈ titles reviews \/ t ∈ titles cur).
Proof.
  induction cur as [|r rest IH]; intros reviews collected.
  - simpl. split; [exists []; rewrite app_nil_r; split; [reflexivity|constructor]|].
    split; [set_solver|]. intros _ t. split; [auto|].
    intros [H|H]; [exact H|inversion H].
  - cbn [admit_reviews]. case_bool_decide as Hin.
    + destruct (IH reviews collected) as ((new & Hnew & Hsub) & Hset & Htitles).
      split; [exists new; split; [exact Hnew|apply sublist_cons, Hsub]|].
      split; [rewrite Hset; simpl; set_solver|].
      intros Hsubset t. rewrite (Htitles Hsubset t). simpl.
      rewrite elem_of_cons. split; [tauto|].
      intros [H|[->|H]]; [tauto| |tauto].
      left. apply Hsubset in Hin. apply elem_of_list_to_set in Hin. exact Hin.
    + destruct (IH (reviews ++ [r]) ({[r_title r]} ∪ collected))
        as ((new & Hnew & Hsub) & Hset & Htitles).
      split.
      { exists (r :: new). rewrite Hnew, <- app_assoc. split; [reflexivity|].
        apply sublist_skip, Hsub. }
      split; [rewrite Hset; simpl; set_solver|].
      intros Hsubset t. rewrite Htitles.
      * unfold titles. rewrite map_app. simpl.
        rewrite !elem_of_app, !elem_of_cons, elem_of_nil. tauto.
      * unfold titles. rewrite map_app. simpl. set_solver.
Qed.

(** X7, at a page whose two reviews bear the same title. *)
Lemma admit_reviews_extends_witness :
  titles (admit_reviews [Review "Muy bien" "2 de enero" "" "";
                         Review "Muy bien" "9 de enero" "" ""] [] ∅).1 = ["Muy bien"] /\
  forall t, t ∈ titles (admit_reviews [Review "Muy bien" "2 de enero" "" "";
                                        Review "Muy bien" "9 de enero" "" ""] [] ∅).1 <->
            t ∈ titles [] \/
            t ∈ titles [Review "Muy bien" "2 de enero" "" "";
                        Review "Muy bien" "9 de enero" "" ""].
Proof.
  split; [vm_compute; reflexivity|].
  apply (proj2 (proj2 (admit_reviews_extends
                         [Review "Muy bien" "2 de enero" "" "";
                          Review "Muy bien" "9 de enero" "" ""] [] ∅))).
  simpl. apply empty_subseteq.
Defined.

(** ** The orchestrator, beyond the guard and the count *)
Section OrchestratorEdges.
Context {W Elem Node : Type}.
Context {Drv : Driver W Elem Node} {Sp : Soup Node} {Url : UrlLib}.

Lemma dict_set_keys {V} (k : string) (v : V) (d : list (string * V)) :
  (dict_set k v d).*1 = if bool_decide (k ∈ d.*1) then d.*1 else d.*1 ++ [k].
Proof.
  induction d as [|[k' v'] rest IH]; simpl.
  - reflexivity.
  - destruct (decide (k = k')) as [<-|Hne].
    + rewrite bool_decide_eq_true_2 by reflexivity.
      rewrite bool_decide_eq_true_2 by (apply elem_of_cons; auto).
      reflexivity.
    + rewrite (bool_decide_eq_false_2 (k = k')) by exact Hne.
      rewrite fmap_cons. cbn [fst]. rewrite IH.
      destruct (decide (k ∈ rest.*1)) as [Hin|Hin].
      * rewrite !bool_decide_eq_true_2; [reflexivity|apply elem_of_cons; auto|exact Hin].
      * rewrite !bool_decide_eq_false_2; [reflexivity| |exact Hin].
        intros [?|?]%elem_of_cons; [congruence|contradiction].
Qed.

Lemma dict_set_ids (k id ty : string) (d : list (string * (string * string))) :
  id <> "" -> ids_nonempty d -> ids_nonempty (dict_set k (id, ty) d).
Proof.
  intros Hid. unfold ids_nonempty. induction d as [|[k' v'] rest IH]; simpl; intros Hd.
  - constructor; [exact Hid|constructor].
  - inversion Hd as [|? ? Hv Hrest]; subst.
    case_bool_decide; constructor; auto.
Qed.

Lemma resolve_all_invariant (ciudades : list string) :
  forall (cfg : list (string * (string * string))) (seen : list string) (w : W),
  NoDup cfg.*1 -> sublist cfg.*1 seen -> ids_nonempty cfg ->
  exists cfg',
    result_of (resolve_all ciudades cfg w) = Ok cfg' /\
    NoDup cfg'.*1 /\ sublist cfg'.*1 (seen ++ ciudades) /\ ids_nonempty cfg'.
Proof.
  induction ciudades as [|ciudad rest IH]; intros cfg seen w Hnd Hsub Hids.
  - exists cfg. simpl. rewrite app_nil_r. auto.
  - cbn [resolve_all]. unfold bind.
    assert (exists r, result_of (buscar_dest_id ciudad "Ecuador" w) = Ok r)
      as [r Hr] by apply recover_ok.
    destruct (buscar_dest_id ciudad "Ecuador" w) as [[r1 w1] t1].
    simpl in Hr. subst r1.
    assert (sublist cfg.*1 (seen ++ [ciudad])) as Hsub'
      by (apply sublist_inserts_r, Hsub).
    assert (forall cfg1,
              NoDup cfg1.*1 -> sublist cfg1.*1 (seen ++ [ciudad]) -> ids_nonempty cfg1 ->
              exists cfg',
                result_of
                  (let '(r0, w2, t2) := resolve_all rest cfg1 w1 in (r0, w2, t1 ++ t2)) =
                  Ok cfg' /\
                NoDup cfg'.*1 /\ sublist cfg'.*1 (seen ++ ciudad :: rest) /\
                ids_nonempty cfg') as Hgo.
    { intros cfg1 H1 H2 H3.
      destruct (IH cfg1 (seen ++ [ciudad]) w1 H1 H2 H3) as (cfg' & Hres & Hrest).
      rewrite <- app_assoc in Hrest. simpl in Hrest.
      destruct (resolve_all rest cfg1 w1) as [[r2 w2] t2]. simpl in *. eauto. }
    destruct r as [[dest_id dest_type]|]; [|apply Hgo; assumption].
    case_bool_decide as Hid; [apply Hgo; assumption|].
    apply Hgo.
    + rewrite dict_set_keys. case_bool_decide as Hin; [exact Hnd|].
      apply NoDup_app. split; [exact Hnd|]. split; [|apply NoDup_singleton].
      intros k Hk Hk'. apply list_elem_of_singleton in Hk'. subst k. contradiction.
    + rewrite dict_set_keys. case_bool_decide as Hin; [exact Hsub'|].
      apply sublist_app; [exact Hsub|reflexivity].
    + apply dict_set_ids; assumption.
Qed.

(** X8. The first step of [main] always yields a configuration: its
    keys are names of the list given, each once, in the order of the
    list, and no entry has an empty [dest_id]. *)
Theorem resolve_all_builds_a_clean_map (ciudades : list string) (w : W) :
  exists cfg,
    result_of (resolve_all (Node := Node) ciudades [] w) = Ok cfg /\
    NoDup cfg.*1 /\ sublist cfg.*1 ciudades /\ ids_nonempty cfg.
Proof.
  destruct (resolve_all_invariant ciudades [] [] w) as (cfg & H); simpl.
  - constructor.
  - constructor.
  - constructor.
  - exists cfg. exact H.
Qed.

(** *** A run still in a scroll loop has scrolled as often as the fuel *)

Lemma outlives_bind {A B} (fuel : nat) (m : M W Elem Node A)
    (k : A -> M W Elem Node (option B)) :
  (forall a, outlives fuel (k a)) -> outlives fuel (bind m k).
Proof.
  intros Hk w. unfold bind.
  destruct (m w) as [[[a|e] w1] t1]; [|discriminate].
  specialize (Hk a w1). destruct (k a w1) as [[r w2] t2]. simpl in *.
  intros Hr. rewrite count_events_app. specialize (Hk Hr). lia.
Qed.

Lemma outlives_bind_opt {A B} (fuel : nat) (m : M W Elem Node (option A))
    (k : option A -> M W Elem Node (option B)) :
  outlives fuel m -> (forall a, outlives fuel (k (Some a))) ->
  outlives fuel (bind m k).
Proof.
  intros Hm Hk w. unfold bind. specialize (Hm w).
  destruct (m w) as [[[[a|]|e] w1] t1]; [| |discriminate].
  - specialize (Hk a w1). destruct (k (Some a) w1) as [[r w2] t2]. simpl in *.
    intros Hr. rewrite count_events_app. specialize (Hk Hr). lia.
  - destruct (k None w1) as [[r w2] t2]. simpl in *.
    intros _. rewrite count_events_app. specialize (Hm eq_refl). lia.
Qed.

Lemma outlives_some {A} (fuel : nat) (m : M W Elem Node (option A)) :
  (forall w, result_of (m w) <> Ok None) -> outlives fuel m.
Proof. intros Hm w Hr. destruct (Hm w Hr). Qed.

Lemma outlives_scroll_to_bottom (fuel : nat) : forall last : Z,
  outlives fuel (scroll_to_bottom (Node := Node) fuel last).
Proof.
  induction fuel as [|fuel IH]; intros last w Hr; [lia|].
  cbn [scroll_to_bottom] in *.
  unfold bind, window_scroll_bottom, sleep, body_scroll_height, prim, prim_total in *.
  destruct (drv_window_scroll_bottom w) as [[[]|e] w1]; [|discriminate Hr].
  cbv beta iota in *.
  destruct (drv_body_scroll_height _) as [[h|e] w2]; [|discriminate Hr].
  cbv beta iota in *.
  destruct (h =? last)%Z; [discriminate Hr|].
  specialize (IH h w2).
  destruct (scroll_to_bottom fuel h w2) as [[r w3] t3]. simpl in *.
  specialize (IH Hr). lia.
Qed.

Lemma outlives_harvest (fuel : nat) (url : string) :
  outlives fuel (scrape_listings_from_search_page fuel url).
Proof.
  unfold scrape_listings_from_search_page.
  apply outlives_bind. intros _. apply outlives_bind. intros loaded.
  destruct (negb loaded); [apply outlives_some; discriminate|].
  apply outlives_bind. intros last.
  apply outlives_bind_opt; [apply outlives_scroll_to_bottom|].
  intros _. apply outlives_bind. intros soup. apply outlives_bind. intros listings.
  apply outlives_some. discriminate.
Qed.

Lemma outlives_process_destino (fuel : nat) (ciudad : string) (config : string * string) :
  outlives fuel (process_destino fuel ciudad config).
Proof.
  unfold process_destino. cbv zeta.
  apply outlives_bind_opt; [apply outlives_harvest|].
  intros [|l ls]; [apply outlives_some; discriminate|].
  apply outlives_bind. intros ls'. apply outlives_bind. intros fecha.
  apply outlives_bind. intros _. apply outlives_bind. intros _.
  apply outlives_some. discriminate.
Qed.

Lemma outlives_process_destinos (fuel : nat) (cfg : list (string * (string * string))) :
  outlives fuel (process_destinos fuel cfg).
Proof.
  induction cfg as [|[ciudad config] rest IH]; cbn [process_destinos].
  - apply outlives_some. discriminate.
  - apply outlives_bind_opt; [apply outlives_process_destino|].
    intros _. exact IH.
Qed.

Lemma outlives_main_body (fuel : nat) : outlives fuel (main_body fuel).
Proof.
  unfold main_body. apply outlives_bind. intros cfg.
  apply outlives_bind. intros _. apply outlives_process_destinos.
Qed.

(** X9. [main] closes the browser on every way out of its body.  A run
    whose body returned or raised continues with [driver.quit()] in the
    state the body left, that call is the last of the run, and the run
    raises only if that call does.  The one run that does not reach it
    is a run still inside a scroll loop of the harvester: it has then
    scrolled the window as many times as the rounds followed. *)
Theorem main_always_quits (fuel : nat) (w : W) :
  (result_of (main_body fuel w) <> Ok None ->
   exists r w2,
     drv_quit (world_of (main_body fuel w)) = (r, w2) /\
     main fuel w =
       (match r with
        | Ok _ => Ok (Some tt)
        | Raise e => Raise e
        end,
        w2,
        trace_of (main_body fuel w) ++ [(CQuit, outcome_map (fun _ => RUnit) r)])) /\
  (result_of (main_body fuel w) = Ok None ->
   main fuel w = main_body fuel w /\
   fuel <= count_events is_window_scroll (trace_of (main fuel w))).
Proof.
  pose proof (outlives_main_body fuel w) as Hfuel.
  unfold main, bind, catch, quit, prim, ret.
  destruct (main_body fuel w) as [[[[u|]|e] w1] t1]; simpl in *.
  - split; [intros _|discriminate].
    destruct (drv_quit w1) as [[u'|e] w2]; simpl;
      eexists _, _; (split; [reflexivity|rewrite ?app_nil_r; reflexivity]).
  - split; [intros Hne; destruct (Hne eq_refl)|intros _].
    rewrite app_nil_r. split; [reflexivity|apply Hfuel; reflexivity].
  - split; [intros _|discriminate].
    destruct (drv_quit w1) as [[u'|e'] w2]; simpl;
      eexists _, _; (split; [reflexivity|rewrite ?app_nil_r; reflexivity]).
Qed.
End OrchestratorEdges.

(** X9, at two runs.  On the site where nothing is found and the dump of
    the identifiers breaks, the body raises and the run still ends with
    [driver.quit()].  On the site whose page of results grows at every
    scroll, the run followed for three rounds is still in the loop: it
    has scrolled three times and has not closed the browser. *)
Lemma main_always_quits_witness :
  (exists t,
     main (Drv := faulty_driver encoding_breaks) (Sp := node_soup) (Url := simple_urllib)
       5 empty_world = (Ok (Some tt), empty_world, t ++ [(CQuit, Ok RUnit)])) /\
  (result_of (main (Drv := mock_driver) (Sp := node_soup) (Url := simple_urllib)
                3 endless_site) = Ok None /\
   3 <= count_events is_window_scroll
          (trace_of (main (Drv := mock_driver) (Sp := node_soup) (Url := simple_urllib)
                       3 endless_site))).
Proof.
  split.
  - destruct (proj1 (main_always_quits (Drv := faulty_driver encoding_breaks)
                       (Sp := node_soup) (Url := simple_urllib) 5 empty_world))
      as (r & w2 & Hquit & Hrun).
    + vm_compute. discriminate.
    + rewrite Hrun. vm_compute in Hquit. injection Hquit as <- <-.
      eexists. reflexivity.
  - destruct (proj2 (main_always_quits (Drv := mock_driver)
                       (Sp := node_soup) (Url := simple_urllib) 3 endless_site))
      as [Hrun Hscrolls].
    + vm_compute. reflexivity.
    + split; [rewrite Hrun; vm_compute; reflexivity|exact Hscrolls].
Defined.

(** ** What enrichment does to a listing *)
Section EnrichmentEdges.
Context {W Elem Node : Type}.
Context {Drv : Driver W Elem Node} {Sp : Soup Node}.

(** The three states in which the [try] of the loop can leave a listing. *)
Lemma enrich_listing_shapes (l : listing) (u : string) (w : W) :
  exists l',
    result_of (enrich_listing l u w) = Ok l' /\
    (l' = l \/
     (exists d, l' = update_listing l d) \/
     (exists d rs, l' = set_reviews (update_listing l d) rs)).
Proof.
  unfold enrich_listing, recover, catch.
  unfold bind at 1. unfold get, prim.
  destruct (drv_get u w) as [[[]|e] w1]; cbv beta iota; [|simpl; eauto].
  unfold bind at 1. unfold sleep_uniform, prim_total. cbv beta iota.
  unfold bind at 1.
  destruct (scrape_detail_page_data (drv_sleep_uniform 2 4 w1)) as [[[d|e] w2] t2];
    cbv beta iota; [|simpl; eauto].
  unfold bind at 1.
  destruct (scrape_reviews_from_modal MAX_PAGINAS_RESEÑAS w2) as [[[rs|e] w3] t3];
    simpl; eauto 7.
Qed.

(** X10. The loop over the listings never raises and never touches what
    the harvester wrote: the eight harvested fields of every listing are
    the same afterwards, in the same order.  Of a listing that came
    without them, the description, the location and the services are set
    together or not at all, and the reviews only on top of them. *)
Theorem enrichment_keeps_harvested_fields :
  (forall (l : listing) (w : W),
     exists l',
       result_of (process_listing l w) = Ok l' /\
       harvested_fields l' = harvested_fields l /\
       (unenriched l ->
        (is_Some (l_description l') <-> is_Some (l_location l')) /\
        (is_Some (l_location l') <-> is_Some (l_services l')) /\
        (is_Some (l_reviews l') -> is_Some (l_description l')))) /\
  (forall (ls : list listing) (w : W),
     exists ls',
       result_of (process_listings ls w) = Ok ls' /\
       map harvested_fields ls' = map harvested_fields ls).
Proof.
  assert (forall (l : listing) (w : W),
            exists l',
              result_of (process_listing l w) = Ok l' /\
              harvested_fields l' = harvested_fields l /\
              (unenriched l ->
               (is_Some (l_description l') <-> is_Some (l_location l')) /\
               (is_Some (l_location l') <-> is_Some (l_services l')) /\
               (is_Some (l_reviews l') -> is_Some (l_description l')))) as Hone.
  { intros l w.
    assert (unenriched l ->
            (is_Some (l_description l) <-> is_Some (l_location l)) /\
            (is_Some (l_location l) <-> is_Some (l_services l)) /\
            (is_Some (l_reviews l) -> is_Some (l_description l))) as Hsame.
    { intros (-> & -> & -> & ->). repeat split; intros [x Hx]; discriminate Hx. }
    unfold process_listing.
    destruct (l_url l) as [u|] eqn:Hu; [|exists l; simpl; auto].
    destruct (url_ok u); [|exists l; simpl; auto].
    destruct (enrich_listing_shapes l u w)
      as (l' & Hres & [->|[(d & ->)|(d & rs & ->)]]);
      eexists; (split; [exact Hres|]).
    - auto.
    - split; [reflexivity|]. intros (_ & _ & _ & Hrev). simpl. rewrite Hrev.
      repeat split; intros _; eauto.
    - split; [reflexivity|]. intros _. simpl. repeat split; intros _; eauto. }
  split; [exact Hone|].
  intros ls. induction ls as [|l rest IH]; intros w.
  - exists []. split; reflexivity.
  - cbn [process_listings]. unfold bind.
    destruct (Hone l w) as (l' & Hl' & Hfields & _).
    destruct (process_listing l w) as [[r1 w1] t1]. simpl in Hl'. subst r1.
    destruct (IH w1) as (rest' & Hrest & Hmap).
    destruct (process_listings rest w1) as [[r2 w2] t2]. simpl in Hrest. subst r2.
    exists (l' :: rest'). simpl. split; [reflexivity|]. rewrite Hfields, Hmap.
    reflexivity.
Qed.

(** X14. A failure of the reviews does not undo the detail: when the
    page is reached, the detail is read and the paginator raises, the
    listing is left with the detail fields and without reviews; when
    [driver.get] itself raises, the listing is left as it was. *)
Theorem failed_reviews_keep_the_detail (l : listing) (url : string) (w : W) :
  (forall w1 d w2 t2 e w3 t3,
     drv_get url w = (Ok tt, w1) ->
     scrape_detail_page_data (drv_sleep_uniform 2 4 w1) = (Ok d, w2, t2) ->
     scrape_reviews_from_modal MAX_PAGINAS_RESEÑAS w2 = (Raise e, w3, t3) ->
     result_of (enrich_listing l url w) = Ok (update_listing l d) /\
     world_of (enrich_listing l url w) = w3) /\
  (forall e w1,
     drv_get url w = (Raise e, w1) ->
     enrich_listing l url w = (Ok l, w1, [(CGet url, Raise e)])).
Proof.
  split.
  - intros w1 d w2 t2 e w3 t3 Hget Hdetail Hreviews.
    unfold enrich_listing, recover, catch, bind, get, sleep_uniform, prim, prim_total.
    rewrite Hget. cbv beta iota zeta. rewrite Hdetail. cbv beta iota.
    rewrite Hreviews. split; reflexivity.
  - intros e w1 Hget.
    unfold enrich_listing, recover, catch.
    unfold bind at 1. unfold get, prim. rewrite Hget. reflexivity.
Qed.

(** X12. The enricher keeps what it has read when a later step fails:
    once the description element is there and the document is read, an
    exception while reading the description gives the three defaults; one
    while reading the map link gives the description read and the two
    other defaults; one while reading the services gives the description
    and the location read and no service. *)
Theorem enricher_keeps_what_it_read (w w1 w2 : W) (el : Elem) (soup : Node) :
  drv_wait_present ESPERA_PAGINA_DETALLE sel_property_description w = (Ok el, w1) ->
  drv_page_soup w1 = (Ok soup, w2) ->
  (forall e,
     set_description soup default_detail_data = Raise e ->
     result_of (scrape_detail_page_data w) = Ok default_detail_data) /\
  (forall d1 e,
     set_description soup default_detail_data = Ok d1 ->
     set_location soup d1 = Raise e ->
     result_of (scrape_detail_page_data w) = Ok d1) /\
  (forall d1 d2 e,
     set_description soup default_detail_data = Ok d1 ->
     set_location soup d1 = Ok d2 ->
     set_services soup d2 = Raise e ->
     result_of (scrape_detail_page_data w) = Ok d2) /\
  (forall d1 d2 d3,
     set_description soup default_detail_data = Ok d1 ->
     set_location soup d1 = Ok d2 ->
     set_services soup d2 = Ok d3 ->
     result_of (scrape_detail_page_data w) = Ok d3).
Proof.
  intros Hwait Hpage.
  unfold scrape_detail_page_data, recover, catch, bind, lift, wait_present,
    page_soup, prim.
  rewrite Hwait, Hpage. cbv zeta.
  repeat split; intros; repeat match goal with H : _ = _ |- _ => rewrite H end;
    reflexivity.
Qed.
End EnrichmentEdges.

(** X10, at the listing whose relative link passes the guard. *)
Lemma enrichment_keeps_harvested_fields_witness :
  unenriched relative_listing /\
  exists l',
    result_of (process_listing (Drv := mock_driver) (Sp := node_soup)
                 relative_listing empty_world) = Ok l' /\
    harvested_fields l' = harvested_fields relative_listing /\
    (is_Some (l_reviews l') -> is_Some (l_description l')).
Proof.
  assert (unenriched relative_listing) as Hun by (repeat split; reflexivity).
  split; [exact Hun|].
  destruct (proj1 (enrichment_keeps_harvested_fields (Drv := mock_driver)
                     (Sp := node_soup)) relative_listing empty_world)
    as (l' & Hres & Hfields & Hstages).
  exists l'. split; [exact Hres|]. split; [exact Hfields|].
  exact (proj2 (proj2 (Hstages Hun))).
Defined.

(** X14, at a detail page whose opening button for the reviews breaks the
    browser. *)
Lemma failed_reviews_keep_the_detail_witness :
  result_of (enrich_listing (Drv := faulty_driver clickable_breaks) (Sp := node_soup)
               relative_listing "https://www.booking.com/hotel/ec/uno.es.html"
               detail_world) =
  Ok (update_listing relative_listing (DetailData "Frente al mar." "-2.2,-80.9" [])).
Proof.
  refine (proj1 (proj1 (failed_reviews_keep_the_detail
                          (Drv := faulty_driver clickable_breaks) (Sp := node_soup)
                          relative_listing "https://www.booking.com/hotel/ec/uno.es.html"
                          detail_world)
                   detail_world _ detail_world _
                   (OtherException "WebDriverException") detail_world _ _ _ _)).
  - reflexivity.
  - vm_compute. reflexivity.
  - vm_compute. reflexivity.
Defined.

(** X12, at a detail page read with a selector engine that fails: the
    description is kept, the location is the default. *)
Lemma enricher_keeps_what_it_read_witness :
  result_of (scrape_detail_page_data (Drv := mock_driver) (Sp := select_one_fails)
               detail_world) =
  Ok (DetailData "Frente al mar." "Ubicación (lat,lng) no disponible" []).
Proof.
  refine (proj1 (proj2 (enricher_keeps_what_it_read (Drv := mock_driver)
                          (Sp := select_one_fails) detail_world detail_world detail_world
                          sel_property_description detail_page _ _))
            _ (OtherException "selector") _ _).
  - vm_compute. reflexivity.
  - vm_compute. reflexivity.
  - vm_compute. reflexivity.
  - vm_compute. reflexivity.
Defined.

(** ** The scroll loop has no cap *)
Section ScrollEdges.
Context {W Elem Node : Type}.
Context {Drv : Driver W Elem Node}.

(** X11. The scroll loop of the harvester goes on for as long as each
    measurement differs from the one before: after [n] rounds that all
    measured a new height, it has not ended. *)
Theorem scroll_to_bottom_has_no_cap (n : nat) : forall (last : Z) (w : W),
  length (measured n w) = n ->
  all_differ last (measured n w) = true ->
  result_of (scroll_to_bottom (Node := Node) n last w) = Ok None.
Proof.
  induction n as [|n IH]; intros last w Hlen Hdiff.
  - reflexivity.
  - pose proof (scroll_to_bottom_round (Node := Node) n last w) as Hround.
    cbn [measured] in Hlen, Hdiff.
    destruct (scroll_round w) as [[h|e] w']; [|discriminate Hlen].
    cbn [all_differ length] in Hlen, Hdiff.
    apply andb_prop in Hdiff as [Hne Hrest].
    destruct (h =? last)%Z; [discriminate Hne|].
    rewrite Hround. apply IH; [lia|exact Hrest].
Qed.
End ScrollEdges.

(** X11, at the page that grows at every scroll. *)
Lemma scroll_to_bottom_has_no_cap_witness :
  result_of (scroll_to_bottom (Drv := mock_driver) (Node := node) 4 500 endless_world) =
  Ok None.
Proof.
  apply (scroll_to_bottom_has_no_cap (Drv := mock_driver) (Node := node) 4 500%Z
           endless_world); vm_compute; reflexivity.
Defined.

(** ** Cards, destinations and files *)
Section DestinationEdges.
Context {W Elem Node : Type}.
Context {Drv : Driver W Elem Node} {Sp : Soup Node} {Url : UrlLib}.

(** X13. A card without a link is kept and never visited: when neither
    of the two anchors is found the listing has the empty URL, when the
    anchor found has no [href] it has none at all, and in both cases the
    loop over the listings leaves it as it is without a call. *)
Theorem card_without_link_is_never_visited (card : Node) (p : listing) (w : W) :
  extract_card card = Ok p ->
  (soup_find card "a" [("data-testid", "title-link")] = Ok None ->
   soup_find card "a" [("data-testid", "availability-cta-btn")] = Ok None ->
   l_url p = Some "" /\ process_listing p w = (Ok p, w, [])) /\
  (forall a,
     soup_find card "a" [("data-testid", "title-link")] = Ok (Some a) ->
     soup_get a "href" = Ok None ->
     l_url p = None /\ process_listing p w = (Ok p, w, [])).
Proof.
  unfold extract_card. intros H. repeat obind_step H. injection H as <-.
  unfold or_else in *. unfold process_listing. cbn [l_url].
  split.
  - intros Hlink Hcta.
    match goal with
    | E : soup_find card "a" [("data-testid", "title-link")] = Ok ?x |- _ =>
        assert (x = None) by congruence; subst x
    end.
    cbv beta iota in *.
    match goal with
    | E : soup_find card "a" [("data-testid", "availability-cta-btn")] = Ok ?x |- _ =>
        assert (x = None) by congruence; subst x
    end.
    cbv beta iota in *.
    match goal with
    | E : Ok (Some "") = Ok ?u |- _ => injection E as <-
    end.
    split; reflexivity.
  - intros anchor Hlink Hhref.
    match goal with
    | E : soup_find card "a" [("data-testid", "title-link")] = Ok ?x |- _ =>
        assert (x = Some anchor) by congruence; subst x
    end.
    cbv beta iota in *.
    match goal with
    | E : Ok (Some anchor) = Ok ?x |- _ => injection E as <-
    end.
    cbv beta iota in *.
    match goal with
    | E : soup_get anchor "href" = Ok ?u |- _ =>
        assert (u = None) by congruence; subst u
    end.
    split; reflexivity.
Qed.

(** X15. No file is written for a destination without listings: when
    the results page is reached and no card shows up in time, the round
    for that destination ends normally after these two calls. *)
Theorem destination_without_listings_is_not_saved (fuel : nat) (ciudad : string)
    (config : string * string) (w w1 w2 : W) :
  let url := generar_url_busqueda config.1 config.2 FECHA_CHECKIN FECHA_CHECKOUT in
  drv_get url w = (Ok tt, w1) ->
  drv_wait_present ESPERA_INICIAL_PAGINA sel_property_card w1 =
    (Raise TimeoutException, w2) ->
  result_of (process_destino fuel ciudad config w) = Ok (Some tt) /\
  world_of (process_destino fuel ciudad config w) = w2 /\
  count_events is_save (trace_of (process_destino fuel ciudad config w)) = 0 /\
  length (trace_of (process_destino fuel ciudad config w)) = 2.
Proof.
  intros url Hget Hwait. subst url.
  unfold process_destino, scrape_listings_from_search_page, bind, catch, get,
    wait_present, prim.
  cbv zeta. rewrite Hget, Hwait. repeat split.
Qed.

(** X16. A write that fails with [IOError] does not stop the run: after
    the id map could not be written, [main] goes on with the
    destinations as if it had been.  Any other exception of the write
    ends the body of [main]. *)
Theorem failed_write_of_the_ids (fuel : nat) (w w1 w2 : W)
    (cfg : list (string * (string * string))) (t1 : list (event Elem Node)) (e : exn) :
  resolve_all DESTINOS_NOMBRES [] w = (Ok cfg, w1, t1) ->
  drv_save_json (CARPETA_SALIDA +:+ "/destinos_ids.json") (JDestinos cfg) w1 =
    (Raise e, w2) ->
  result_of (main_body fuel w) =
    match e with
    | IOError => result_of (process_destinos fuel cfg w2)
    | _ => Raise e
    end.
Proof.
  intros Hresolve Hsave.
  unfold main_body, save_to_json, bind, catch, write_json, prim.
  rewrite Hresolve, Hsave.
  destruct e; try reflexivity. simpl.
  destruct (process_destinos fuel cfg w2) as [[r w3] t3]. reflexivity.
Qed.
End DestinationEdges.

(** X13, at the card with a title and no link. *)
Lemma card_without_link_is_never_visited_witness :
  exists p,
    extract_card (Sp := node_soup) bare_card = Ok p /\
    l_url p = Some "" /\
    process_listing (Drv := mock_driver) (Sp := node_soup) p empty_world =
      (Ok p, empty_world, []).
Proof.
  eexists. split; [vm_compute; reflexivity|].
  apply (proj1 (card_without_link_is_never_visited (Drv := mock_driver)
                  (Sp := node_soup) bare_card _ empty_world
                  ltac:(vm_compute; reflexivity)));
    vm_compute; reflexivity.
Defined.

(** X15, at the site where nothing is found. *)
Lemma destination_without_listings_is_not_saved_witness :
  result_of (process_destino (Drv := mock_driver) (Sp := node_soup)
               3 "Salinas" ("900", "city") empty_world) = Ok (Some tt) /\
  count_events is_save
    (trace_of (process_destino (Drv := mock_driver) (Sp := node_soup)
                 3 "Salinas" ("900", "city") empty_world)) = 0.
Proof.
  destruct (destination_without_listings_is_not_saved (Drv := mock_driver)
              (Sp := node_soup) 3 "Salinas" ("900", "city")
              empty_world empty_world empty_world)
    as (Hres & _ & Hsaves & _).
  - reflexivity.
  - vm_compute. reflexivity.
  - split; [exact Hres|exact Hsaves].
Defined.

(** X16, at the site of the scenario with a disk that refuses every
    write: the run still goes through the seven destinations. *)
Lemma failed_write_of_the_ids_witness :
  result_of (main_body (Drv := faulty_driver disk_full) (Sp := node_soup)
               (Url := simple_urllib) 5 full_site) = Ok (Some tt).
Proof.
  rewrite (failed_write_of_the_ids (Drv := faulty_driver disk_full) (Sp := node_soup)
             (Url := simple_urllib) 5 full_site full_site full_site
             (map (fun ciudad => (ciudad, ("900", "city"))) DESTINOS_NOMBRES)
             (trace_of (resolve_all (Drv := faulty_driver disk_full)
                          (Url := simple_urllib) DESTINOS_NOMBRES [] full_site))
             IOError).
  - vm_compute. reflexivity.
  - vm_compute. reflexivity.
  - vm_compute. reflexivity.
Defined.

(** ** The search URL read back *)

Lemma has_char_app (c : ascii) (a b : string) :
  has_char c (a +:+ b) = has_char c a || has_char c b.
Proof.
  induction a as [|x a IH]; [reflexivity|].
  change (String x a +:+ b) with (String x (a +:+ b)). cbn [has_char].
  rewrite IH, orb_assoc. reflexivity.
Qed.

Lemma partition_char_absent (c : ascii) (s : string) :
  has_char c s = false -> partition_char c s = (s, None).
Proof.
  induction s as [|x s IH]; [reflexivity|]. cbn [has_char partition_char].
  intros H. apply orb_false_elim in H as [Hx Hs]. rewrite Hx, (IH Hs). reflexivity.
Qed.

Lemma partition_char_first (c : ascii) (a b : string) :
  has_char c a = false -> partition_char c (a +:+ String c b) = (a, Some b).
Proof.
  induction a as [|x a IH]; intros H.
  - change ("" +:+ String c b) with (String c b). cbn [partition_char].
    rewrite Ascii.eqb_refl. reflexivity.
  - change (String x a +:+ String c b) with (String x (a +:+ String c b)).
    cbn [has_char partition_char] in *.
    apply orb_false_elim in H as [Hx Ha]. rewrite Hx, (IH Ha). reflexivity.
Qed.

Lemma split_char_first (c : ascii) (a b : string) :
  has_char c a = false -> split_char c (a +:+ String c b) = a :: split_char c b.
Proof.
  induction a as [|x a IH]; intros H.
  - change ("" +:+ String c b) with (String c b). cbn [split_char].
    rewrite Ascii.eqb_refl. reflexivity.
  - change (String x a +:+ String c b) with (String x (a +:+ String c b)).
    cbn [has_char split_char] in *.
    apply orb_false_elim in H as [Hx Ha]. rewrite Hx, (IH Ha). reflexivity.
Qed.

Lemma plus_to_space_plain (s : string) :
  has_char "+" s = false -> plus_to_space s = s.
Proof.
  induction s as [|x s IH]; [reflexivity|]. cbn [has_char plus_to_space].
  intros H. apply orb_false_elim in H as [Hx Hs]. rewrite Hx, (IH Hs). reflexivity.
Qed.

Lemma append_assoc (a b c : string) : (a +:+ b) +:+ c = a +:+ (b +:+ c).
Proof.
  induction a as [|x a IH]; [reflexivity|].
  change (String x a +:+ b) with (String x (a +:+ b)).
  change (String x (a +:+ b) +:+ c) with (String x ((a +:+ b) +:+ c)).
  rewrite IH. reflexivity.
Qed.

Lemma no_break_app (a b : string) : no_break (a +:+ b) = no_break a && no_break b.
Proof.
  unfold no_break. rewrite !has_char_app.
  destruct (has_char "009" a), (has_char "010" a), (has_char "013" a),
    (has_char "009" b), (has_char "010" b), (has_char "013" b); reflexivity.
Qed.

Lemma strip_unsafe_plain (s : string) : no_break s = true -> strip_unsafe s = s.
Proof.
  unfold no_break. induction s as [|c s IH]; [reflexivity|].
  cbn [has_char strip_unsafe]. unfold is_unsafe. intros H.
  destruct (Ascii.eqb c "009"); [discriminate H|].
  destruct (Ascii.eqb c "010");
    [cbn [orb negb andb] in H; rewrite andb_false_r in H; discriminate H|].
  destruct (Ascii.eqb c "013");
    [cbn [orb negb andb] in H; rewrite andb_false_r in H; discriminate H|].
  cbn [orb] in *. rewrite (IH H). reflexivity.
Qed.

Lemma url_query_of_generated (id ty ci co : string) :
  no_break id = true -> no_break ty = true ->
  no_break ci = true -> no_break co = true ->
  has_char "#" id = false -> has_char "#" ty = false ->
  has_char "#" ci = false -> has_char "#" co = false ->
  url_query (generar_url_busqueda id ty ci co) =
  "dest_id=" +:+ id +:+ "&dest_type=" +:+ ty +:+ "&checkin=" +:+ ci +:+
  "&checkout=" +:+ co +:+ "&group_adults=2&no_rooms=1&group_children=0".
Proof.
  intros B1 B2 B3 B4 H1 H2 H3 H4. unfold url_query.
  rewrite strip_unsafe_plain.
  2:{ unfold generar_url_busqueda. cbv zeta.
      rewrite !no_break_app, B1, B2, B3, B4. reflexivity. }
  unfold generar_url_busqueda. cbv zeta.
  rewrite (partition_char_absent "#").
  2:{ rewrite !has_char_app, H1, H2, H3, H4. reflexivity. }
  cbn [fst].
  change ("?dest_id=" +:+ id +:+ "&dest_type=" +:+ ty +:+ "&checkin=" +:+ ci +:+
  "&checkout=" +:+ co +:+ "&group_adults=2&no_rooms=1&group_children=0") with (String "?" ("dest_id=" +:+ id +:+ "&dest_type=" +:+ ty +:+ "&checkin=" +:+ ci +:+
  "&checkout=" +:+ co +:+ "&group_adults=2&no_rooms=1&group_children=0")).
  rewrite partition_char_first by reflexivity. reflexivity.
Qed.

Lemma parse_qsl_of_generated (id ty ci co : string) :
  has_char "&" id = false -> has_char "&" ty = false ->
  has_char "&" ci = false -> has_char "&" co = false ->
  split_char "&" ("dest_id=" +:+ id +:+ "&dest_type=" +:+ ty +:+ "&checkin=" +:+ ci +:+
  "&checkout=" +:+ co +:+ "&group_adults=2&no_rooms=1&group_children=0") =
  ["dest_id=" +:+ id; "dest_type=" +:+ ty; "checkin=" +:+ ci; "checkout=" +:+ co;
   "group_adults=2"; "no_rooms=1"; "group_children=0"].
Proof.
  intros H1 H2 H3 H4.
  change ("&dest_type=" +:+ ?x) with (String "&" ("dest_type=" +:+ x)).
  change ("&checkin=" +:+ ?x) with (String "&" ("checkin=" +:+ x)).
  change ("&checkout=" +:+ ?x) with (String "&" ("checkout=" +:+ x)).
  change ("&group_adults=2&no_rooms=1&group_children=0") with (String "&" "group_adults=2&no_rooms=1&group_children=0").
  rewrite <- (append_assoc "dest_id=" id), split_char_first by (rewrite has_char_app, H1; reflexivity).
  rewrite <- (append_assoc "dest_type=" ty), split_char_first by (rewrite has_char_app, H2; reflexivity).
  rewrite <- (append_assoc "checkin=" ci), split_char_first by (rewrite has_char_app, H3; reflexivity).
  rewrite <- (append_assoc "checkout=" co), split_char_first by (rewrite has_char_app, H4; reflexivity).
  reflexivity.
Qed.

Lemma partition_eq_named (name value : string) :
  has_char "=" name = false ->
  partition_char "=" (name +:+ String "=" value) = (name, Some value).
Proof. apply partition_char_first. Qed.

(** X17. The search URL carries the destination it is built for: read
    back the way [buscar_dest_id] reads a URL, the URL that
    [generar_url_busqueda] builds from a non-empty [dest_id] and
    [dest_type] gives that same pair, as long as the two values and the
    two dates hold no [&], [;], [#], tab, line feed or carriage return,
    and the two values no [+] and no [%] either: the characters that the
    parsing of a URL takes as separators, removes or decodes. *)
Theorem search_url_round_trip (id ty ci co : string) :
  plain_value id = true -> plain_value ty = true ->
  no_separator ci = true -> no_separator co = true ->
  id <> "" -> ty <> "" ->
  extract_dest_id (Url := simple_urllib) (generar_url_busqueda id ty ci co) =
  Ok (Some (id, ty)).
Proof.
  unfold plain_value, no_separator.
  intros Hid Hty Hci Hco Hid0 Hty0.
  repeat match goal with
         | H : _ && _ = true |- _ => apply andb_prop in H as [? ?]
         | H : negb (has_char _ _) = true |- _ => apply negb_true_iff in H
         end.
  unfold extract_dest_id. cbn [parse_query_params simple_urllib obind].
  rewrite url_query_of_generated by assumption.
  unfold parse_qs, parse_qsl. rewrite parse_qsl_of_generated by assumption.
  cbn [flat_map].
  change ("dest_id=" +:+ id) with ("dest_id" +:+ String "=" id).
  change ("dest_type=" +:+ ty) with ("dest_type" +:+ String "=" ty).
  change ("checkin=" +:+ ci) with ("checkin" +:+ String "=" ci).
  change ("checkout=" +:+ co) with ("checkout" +:+ String "=" co).
  rewrite !partition_char_first by reflexivity.
  rewrite (bool_decide_eq_false_2 (id = "")) by assumption.
  rewrite (bool_decide_eq_false_2 (ty = "")) by assumption.
  rewrite (plus_to_space_plain id), (plus_to_space_plain ty) by assumption.
  destruct (bool_decide (ci = "")); destruct (bool_decide (co = ""));
    cbn [app];
    match goal with
    | |- context [?m !! "dest_id"] =>
        assert (m !! "dest_id" = Some [id]) as -> by (vm_compute; reflexivity);
        assert (m !! "dest_type" = Some [ty]) as -> by (vm_compute; reflexivity)
    end;
    cbn [fmap option_fmap option_map default first_item map obind];
    unfold Datatypes.id; cbn [first_item obind];
    rewrite bool_decide_eq_false_2 by assumption; reflexivity.
Qed.

(** X17, at the destination of the scenario and the dates of the
    script. *)
Lemma search_url_round_trip_witness :
  extract_dest_id (Url := simple_urllib)
    (generar_url_busqueda "900" "city" FECHA_CHECKIN FECHA_CHECKOUT) =
  Ok (Some ("900", "city")).
Proof.
  apply search_url_round_trip; first [reflexivity | discriminate].
Defined.

(** ** Where [main] writes *)
Section Writes.
Context {W Elem Node : Type}.
Context {Drv : Driver W Elem Node} {Sp : Soup Node} {Url : UrlLib}.
Context (P : event Elem Node -> Prop).
Hypothesis P_other_calls : forall c r, (forall f d, c <> CSaveJson f d) -> P (c, r).

Abbreviation everywhere := (trace_all (W := W) (E := Elem) (N := Node) P).

Lemma everywhere_prim {A} c (inj : A -> retval Elem Node) (op : W -> outcome A * W) :
  (forall f d, c <> CSaveJson f d) -> everywhere (prim c inj op).
Proof. intros Hc. apply trace_all_prim. intros r. apply P_other_calls, Hc. Qed.

Lemma everywhere_prim_total {A} c (inj : A -> retval Elem Node) (op : W -> A * W) :
  (forall f d, c <> CSaveJson f d) -> everywhere (prim_total c inj op).
Proof. intros Hc. apply trace_all_prim_total. intros r. apply P_other_calls, Hc. Qed.

Ltac other_call :=
  first [apply everywhere_prim | apply everywhere_prim_total]; intros; discriminate.

Lemma everywhere_get url : everywhere (get url). Proof. other_call. Qed.
Lemma everywhere_sleep ms : everywhere (sleep ms). Proof. other_call. Qed.
Lemma everywhere_sleep_uniform lo hi : everywhere (sleep_uniform lo hi).
Proof. other_call. Qed.
Lemma everywhere_wait_clickable t sel : everywhere (wait_clickable t sel).
Proof. other_call. Qed.
Lemma everywhere_wait_present t sel : everywhere (wait_present t sel).
Proof. other_call. Qed.
Lemma everywhere_js_click el : everywhere (js_click el). Proof. other_call. Qed.
Lemma everywhere_find_element sel : everywhere (find_element sel).
Proof. other_call. Qed.
Lemma everywhere_elem_find_element el sel : everywhere (elem_find_element el sel).
Proof. other_call. Qed.
Lemma everywhere_elem_click el : everywhere (elem_click el). Proof. other_call. Qed.
Lemma everywhere_elem_clear el : everywhere (elem_clear el). Proof. other_call. Qed.
Lemma everywhere_send_keys el keys : everywhere (send_keys el keys).
Proof. other_call. Qed.
Lemma everywhere_is_enabled el : everywhere (is_enabled el). Proof. other_call. Qed.
Lemma everywhere_current_url : everywhere current_url. Proof. other_call. Qed.
Lemma everywhere_page_soup : everywhere page_soup. Proof. other_call. Qed.
Lemma everywhere_body_scroll_height : everywhere body_scroll_height.
Proof. other_call. Qed.
Lemma everywhere_window_scroll_bottom : everywhere window_scroll_bottom.
Proof. other_call. Qed.
Lemma everywhere_elem_scroll_height el : everywhere (elem_scroll_height el).
Proof. other_call. Qed.
Lemma everywhere_elem_scroll_bottom el : everywhere (elem_scroll_bottom el).
Proof. other_call. Qed.
Lemma everywhere_now : everywhere now_isoformat. Proof. other_call. Qed.
Lemma everywhere_quit : everywhere quit. Proof. other_call. Qed.

#[local] Hint Resolve everywhere_get everywhere_sleep everywhere_sleep_uniform
  everywhere_wait_clickable everywhere_wait_present everywhere_js_click
  everywhere_find_element everywhere_elem_find_element everywhere_elem_click
  everywhere_elem_clear everywhere_send_keys everywhere_is_enabled
  everywhere_current_url everywhere_page_soup everywhere_body_scroll_height
  everywhere_window_scroll_bottom everywhere_elem_scroll_height
  everywhere_elem_scroll_bottom everywhere_now everywhere_quit : trace.

Lemma everywhere_accept_cookies sels : everywhere (accept_cookies sels).
Proof. induction sels as [|sel rest IH]; simpl; trace_walk. Qed.
#[local] Hint Resolve everywhere_accept_cookies : trace.

Lemma everywhere_buscar_dest_id ciudad pais : everywhere (buscar_dest_id ciudad pais).
Proof.
  unfold buscar_dest_id, recover, read_dest_id, post_search_url, search_interaction,
    attempt.
  trace_walk.
Qed.
#[local] Hint Resolve everywhere_buscar_dest_id : trace.

Lemma everywhere_resolve_all ciudades : forall cfg, everywhere (resolve_all ciudades cfg).
Proof. induction ciudades as [|ciudad rest IH]; intros cfg; simpl; trace_walk. Qed.

Lemma everywhere_scroll_to_bottom fuel : forall last, everywhere (scroll_to_bottom fuel last).
Proof. induction fuel as [|fuel IH]; intros last; simpl; trace_walk. Qed.
#[local] Hint Resolve everywhere_scroll_to_bottom : trace.

Lemma everywhere_scrape_listings fuel url :
  everywhere (scrape_listings_from_search_page fuel url).
Proof. unfold scrape_listings_from_search_page. trace_walk. Qed.

Lemma everywhere_scrape_detail : everywhere scrape_detail_page_data.
Proof. unfold scrape_detail_page_data, recover. trace_walk. Qed.

Lemma everywhere_scroll_modal_loop rounds modal :
  forall last, everywhere (scroll_modal_loop rounds modal last).
Proof.
  induction rounds as [|n IH]; intros last; simpl; unfold scroll_attempt; trace_walk.
Qed.
#[local] Hint Resolve everywhere_scroll_modal_loop : trace.

Lemma everywhere_page_loop pages modal :
  forall reviews collected, everywhere (page_loop pages modal reviews collected).
Proof.
  induction pages as [|page rest IH]; intros reviews collected; simpl;
    unfold scroll_modal_completely, parse_visible_reviews, click_next_page;
    trace_walk.
Qed.
#[local] Hint Resolve everywhere_page_loop : trace.

Lemma everywhere_scrape_reviews max_pages : everywhere (scrape_reviews_from_modal max_pages).
Proof.
  unfold scrape_reviews_from_modal, click_read_all_reviews, wait_reviews_modal,
    close_modal, attempt.
  trace_walk.
Qed.
#[local] Hint Resolve everywhere_scrape_listings everywhere_scrape_detail
  everywhere_scrape_reviews everywhere_resolve_all : trace.

Lemma everywhere_process_listings ls : everywhere (process_listings ls).
Proof.
  induction ls as [|l rest IH]; simpl; unfold process_listing, enrich_listing, recover;
    trace_walk.
Qed.
#[local] Hint Resolve everywhere_process_listings : trace.

(** A write to [filename] that [P] accepts. *)
Lemma everywhere_save_to_json data filename :
  (forall r, P (CSaveJson filename data, r)) -> everywhere (save_to_json data filename).
Proof.
  intros Hsave. unfold save_to_json, write_json. apply trace_all_catch.
  - apply trace_all_prim. exact Hsave.
  - intros e. destruct e; trace_walk.
Qed.

(** The whole of [main], given the two kinds of file it writes. *)
Lemma everywhere_main fuel :
  (forall cfg r,
     P (CSaveJson (CARPETA_SALIDA +:+ "/destinos_ids.json") (JDestinos cfg), r)) ->
  (forall ciudad res r,
     P (CSaveJson (CARPETA_SALIDA +:+ "/" +:+ replace_space (lower ciudad) +:+ "_data.json")
          (JResultado res), r)) ->
  everywhere (main fuel).
Proof.
  intros Hids Hdest.
  assert (forall ciudad res,
            everywhere
              (save_to_json (JResultado res)
                 (CARPETA_SALIDA +:+ "/" +:+ replace_space (lower ciudad) +:+ "_data.json")))
    as Hsave_dest
    by (intros ciudad res; apply everywhere_save_to_json; intros r; apply Hdest).
  assert (forall cfg,
            everywhere
              (save_to_json (JDestinos cfg) (CARPETA_SALIDA +:+ "/destinos_ids.json")))
    as Hsave_ids
    by (intros cfg; apply everywhere_save_to_json; intros r; apply Hids).
  assert (forall ciudad config, everywhere (process_destino fuel ciudad config)) as Hone.
  { intros ciudad config. unfold process_destino. cbv zeta. trace_walk. }
  assert (forall cfg, everywhere (process_destinos fuel cfg)) as Hall.
  { intros cfg. induction cfg as [|[ciudad config] rest IH]; simpl; trace_walk. }
  unfold main, main_body. trace_walk.
Qed.
End Writes.

Lemma replace_space_has_none (s : string) : has_char " " (replace_space s) = false.
Proof.
  induction s as [|c s IH]; [reflexivity|]. cbn [replace_space has_char].
  rewrite IH, orb_false_r.
  destruct (Ascii.eqb c " ") eqn:Hc; [reflexivity|exact Hc].
Qed.

Lemma prefix_of_app (a s : string) : String.prefix a (a +:+ s) = true.
Proof.
  induction a as [|c a IH].
  - destruct s; reflexivity.
  - change (String c a +:+ s) with (String c (a +:+ s)). cbn [String.prefix].
    destruct (Ascii.ascii_dec c c) as [_|Hne]; [exact IH|contradiction].
Qed.

(** X18. [main] writes nowhere but into the output folder, and never to a
    file whose name holds a space: every write of a run, the id map as
    well as the record of each destination, goes to a path that starts
    with [datos_booking/] and has no space in it. *)
Theorem main_writes_into_its_folder {W Elem Node : Type}
    {Drv : Driver W Elem Node} {Sp : Soup Node} {Url : UrlLib} (fuel : nat) (w : W) :
  Forall well_placed (trace_of (main fuel w)).
Proof.
  revert w. change (trace_all (W := W) (well_placed (E := Elem) (N := Node)) (main fuel)).
  apply everywhere_main.
  - intros c r Hc. unfold well_placed. simpl.
    destruct c; try exact I. exfalso. eapply Hc. reflexivity.
  - intros cfg r. unfold well_placed, startswith. cbn [fst].
    split; [|reflexivity].
    change "/destinos_ids.json" with ("/" +:+ "destinos_ids.json").
    rewrite <- append_assoc. apply prefix_of_app.
  - intros ciudad res r. unfold well_placed, startswith. cbn [fst].
    rewrite <- (append_assoc CARPETA_SALIDA "/"). split; [apply prefix_of_app|].
    rewrite append_assoc.
    unfold CARPETA_SALIDA. rewrite !has_char_app, replace_space_has_none. reflexivity.
Qed.

(** ** The cards of a page of reviews *)
Section ReviewCards.
Context {W Elem Node : Type}.
Context {Drv : Driver W Elem Node} {Sp : Soup Node}.

Lemma parse_cards_length (cards : list Node) : forall rs,
  parse_cards cards = Ok rs -> length rs = length cards.
Proof.
  induction cards as [|card rest IH]; intros rs H; cbn [parse_cards] in H.
  - injection H as <-. reflexivity.
  - repeat obind_step H. injection H as <-. simpl. f_equal.
    apply IH; first [assumption|reflexivity].
Qed.

Lemma parse_cards_raises (cards : list Node) (card : Node) (e : exn) :
  card ∈ cards -> parse_card card = Raise e -> exists e', parse_cards cards = Raise e'.
Proof.
  intros Hin Hraise. induction cards as [|c rest IH]; [inversion Hin|].
  cbn [parse_cards]. apply elem_of_cons in Hin as [<-|Hin].
  - rewrite Hraise. simpl. eauto.
  - destruct (parse_card c) as [r|e0]; simpl; [|eauto].
    destruct (IH Hin) as [e' He']. rewrite He'. simpl. eauto.
Qed.

(** X19. A page of reviews is read whole or not at all: the reviews
    parsed are as many as the cards, a sub-field whose element is missing
    is the empty string, and, unlike a property card of the harvester, a
    review card whose extraction raises is not skipped: the exception
    leaves [parse_visible_reviews]. *)
Theorem review_cards_are_all_or_nothing :
  (forall (cards : list Node) (rs : list review),
     parse_cards cards = Ok rs -> length rs = length cards) /\
  (forall (card : Node) (r : review),
     parse_card card = Ok r ->
     (soup_find card "h4" [("data-testid", "review-title")] = Ok None -> r_title r = "") /\
     (soup_find card "span" [("data-testid", "review-date")] = Ok None -> r_date r = "") /\
     (soup_find card "div" [("data-testid", "review-positive-text")] = Ok None ->
      r_positive_feedback r = "") /\
     (soup_find card "div" [("data-testid", "review-negative-text")] = Ok None ->
      r_negative_feedback r = "")) /\
  (forall (w w1 : W) (soup : Node) (cards : list Node) (card : Node) (e : exn),
     drv_page_soup w = (Ok soup, w1) ->
     soup_select soup sel_review_cards = Ok cards ->
     card ∈ cards ->
     parse_card card = Raise e ->
     exists e', result_of (parse_visible_reviews w) = Raise e').
Proof.
  split; [exact parse_cards_length|]. split.
  - intros card r H. unfold parse_card in H. repeat obind_step H. injection H as <-.
    unfold text_or in *.
    repeat split; intros; simplify_eq/=; reflexivity.
  - intros w w1 soup cards card e Hpage Hselect Hin Hraise.
    destruct (parse_cards_raises cards card e Hin Hraise) as [e' He'].
    exists e'. unfold parse_visible_reviews, bind, lift, page_soup, prim.
    rewrite Hpage. simpl. rewrite Hselect, He'. reflexivity.
Qed.
End ReviewCards.

(** X19, at the cards of the first page of the modal. *)
Lemma review_cards_are_all_or_nothing_witness :
  exists rs,
    parse_cards (Sp := node_soup)
      [review_card "Excelente" "1 de enero"; review_card "Muy bien" "2 de enero"] = Ok rs /\
    length rs = 2.
Proof.
  eexists. split; [vm_compute; reflexivity|].
  apply (proj1 (review_cards_are_all_or_nothing (Drv := mock_driver) (Sp := node_soup))
           [review_card "Excelente" "1 de enero"; review_card "Muy bien" "2 de enero"]).
  vm_compute. reflexivity.
Defined.
